(** * CsprojReader: project-descriptor resolution

    A shallow embedding of [src/project/csprojReader.ts] (class
    [CsprojReader]): scalar property lookup over the property groups of a
    parsed [.csproj] document with its single-hop [Import] fallback, the
    target-framework comparison and the extraction of [Using] items.

    The asynchronous methods are embedded in a small monad that records the
    observable events of a call (file reads, parser runs, logged errors) and
    that completes either normally or by throwing.  The collaborators that
    live outside the class (the file handler, the xml2js parser, Node's
    [path] module) are the fields of a [Host] record. *)

From Stdlib Require Import String Ascii List Bool Arith ZArith Lia.
From Stdlib Require DecimalString DecimalNat.
Import ListNotations.
Open Scope string_scope.

(* ===================================================================== *)
(** ** JavaScript primitives used by the reader                           *)
(* ===================================================================== *)

Module JS.

(** [s.replace(pattern, replacement)] with a string pattern: only the
    FIRST occurrence of [pattern] is replaced.  (The replacements used by
    the reader are [path.sep], which holds no [$] pattern.) *)
Fixpoint replace (pattern replacement s : string) : string :=
  if prefix pattern s
  then replacement ++ substring (String.length pattern) (String.length s - String.length pattern) s
  else match s with
       | EmptyString => EmptyString
       | String c rest => String c (replace pattern replacement rest)
       end.

(** Truthiness of a string: only the empty string is falsy. *)
Definition truthy (s : string) : bool :=
  match s with EmptyString => false | String _ _ => true end.

(** [\d] *)
Definition isDigit (c : ascii) : bool :=
  (48 <=? nat_of_ascii c)%nat && (nat_of_ascii c <=? 57)%nat.

(** One pattern character under the [i] flag: [c] matches the lower-case
    letter [l] when it is [l] or its upper-case form. *)
Definition eqIgnoreCase (l c : ascii) : bool :=
  Ascii.eqb c l || (nat_of_ascii c + 32 =? nat_of_ascii l)%nat.

(** The rest of [\d+(\.\d+)*] once a first digit has been consumed:
    greedily more digits, or a dot that is followed by a digit. *)
Fixpoint versionTail (s : string) : string :=
  match s with
  | EmptyString => EmptyString
  | String c rest =>
      if isDigit c then String c (versionTail rest)
      else if Ascii.eqb c "."
           then match rest with
                | String d _ => if isDigit d then String c (versionTail rest)
                                else EmptyString
                | EmptyString => EmptyString
                end
           else EmptyString
  end.

(** [\d+(\.\d+)*] anchored at the start of [s]. *)
Definition versionAt (s : string) : option string :=
  match s with
  | String c rest => if isDigit c then Some (String c (versionTail rest)) else None
  | EmptyString => None
  end.

(** [s.match(/(?<=net)\d+(\.\d+)*/i)]: element [0] of the match array of
    the leftmost match, or [None] for [null].  A position matches when the
    three characters before it spell [net] in any casing and a digit
    stands at it.  (A non-null match array has length 2.) *)
Fixpoint matchNetVersion (s : string) : option string :=
  match s with
  | EmptyString => None
  | String a tl =>
      match tl with
      | String b (String c rest) =>
          if eqIgnoreCase "n" a && eqIgnoreCase "e" b && eqIgnoreCase "t" c
          then match versionAt rest with
               | Some m => Some m
               | None => matchNetVersion tl
               end
          else matchNetVersion tl
      | _ => None
      end
  end.

(** The value of [Number(s)] before it is rounded to a double: not a
    number, or the decimal [mantissa / 10^scale]. *)
Inductive number : Type :=
| NaN
| Decimal (mantissa : Z) (scale : nat).

Definition digitValue (c : ascii) : Z := Z.of_nat (nat_of_ascii c - 48).

(** Reads [digits] or [digits.digits]; [seenDot] tells whether the dot has
    been passed, [afterDigit] whether the previous character was a
    digit. *)
Fixpoint numberFrom (s : string) (seenDot afterDigit : bool)
         (mantissa : Z) (scale : nat) : number :=
  match s with
  | EmptyString => if afterDigit then Decimal mantissa scale else NaN
  | String c rest =>
      if isDigit c
      then numberFrom rest seenDot true (10 * mantissa + digitValue c)
                      (if seenDot then S scale else scale)
      else if Ascii.eqb c "." && negb seenDot && afterDigit
           then numberFrom rest true false mantissa scale
           else NaN
  end.

(** [Number(s)] for the strings the reader converts, which all have the
    shape [\d+(\.\d+)*]: a run with at most one dot is a decimal literal,
    a run with more dots is not a numeric literal at all. *)
Definition Number (s : string) : number := numberFrom s false false 0 0.

(** [Number.isNaN(x)] applied to a string: it is [true] only for the
    number value NaN, so for every string it is [false]. *)
Definition Number_isNaN (_ : string) : bool := false.

(** [n >= 6] on the double that [n] rounds to.  NaN compares false with
    everything.  Doubles in [4, 8) are spaced 2^-50 apart and 6 has an even
    significand, so the correctly rounded conversion (to nearest, ties to
    even) sends exactly the decimals that are at least [6 - 2^-51] to a
    double that is at least 6. *)
Definition ge6 (n : number) : bool :=
  match n with
  | NaN => false
  | Decimal m k => ((6 * 2 ^ 51 - 1) * 10 ^ Z.of_nat k <=? m * 2 ^ 51)%Z
  end.

(** [s.endsWith(suffix)] *)
Definition endsWith (s suffix : string) : bool :=
  (String.length suffix <=? String.length s)%nat
  && String.eqb (substring (String.length s - String.length suffix)
                           (String.length suffix) s)
                suffix.

(** [s.split(separator)[0]] for a one-character separator: the text before
    its first occurrence, the whole string when it does not occur. *)
Fixpoint firstSegment (separator : ascii) (s : string) : string :=
  match s with
  | EmptyString => EmptyString
  | String c rest =>
      if Ascii.eqb c separator then EmptyString
      else String c (firstSegment separator rest)
  end.

(** The text of a non-negative integer in a template literal: its decimal
    numeral, without leading zero. *)
Definition natToString (n : nat) : string :=
  DecimalString.NilEmpty.string_of_uint (Nat.to_uint n).

(** White space skipped by [parseInt] (the ASCII part of it: tab, line
    feed, vertical tab, form feed, carriage return, space). *)
Definition isWhiteSpace (c : ascii) : bool :=
  ((9 <=? nat_of_ascii c)%nat && (nat_of_ascii c <=? 13)%nat)
  || (nat_of_ascii c =? 32)%nat.

Fixpoint trimStart (s : string) : string :=
  match s with
  | EmptyString => EmptyString
  | String c rest => if isWhiteSpace c then trimStart rest else s
  end.

(** The value of [c] as a digit of the given radix, if it is one. *)
Definition radixDigit (radix : Z) (c : ascii) : option Z :=
  let n := nat_of_ascii c in
  let value :=
    if (48 <=? n)%nat && (n <=? 57)%nat then Some (Z.of_nat (n - 48))
    else if (97 <=? n)%nat && (n <=? 122)%nat then Some (Z.of_nat (n - 87))
    else if (65 <=? n)%nat && (n <=? 90)%nat then Some (Z.of_nat (n - 55))
    else None in
  match value with
  | Some d => if (d <? radix)%Z then Some d else None
  | None => None
  end.

(** The longest prefix of digits, read as a number; [None] while no digit
    has been read. *)
Fixpoint parseDigits (radix : Z) (s : string) (acc : option Z) : option Z :=
  match s with
  | EmptyString => acc
  | String c rest =>
      match radixDigit radix c with
      | Some d =>
          parseDigits radix rest
                      (Some (radix * match acc with Some v => v | None => 0 end + d)%Z)
      | None => acc
      end
  end.

(** [parseInt(s)] without radix argument: leading white space, an optional
    sign, an optional [0x] that selects radix 16, then the digits; [None]
    is NaN.  (Exact as long as the integer is below 2^53.) *)
Definition parseInt (s : string) : option Z :=
  let trimmed := trimStart s in
  let signed :=
    match trimmed with
    | String c rest =>
        if Ascii.eqb c "-" then ((-1)%Z, rest)
        else if Ascii.eqb c "+" then (1%Z, rest)
        else (1%Z, trimmed)
    | EmptyString => (1%Z, trimmed)
    end in
  let prefixed :=
    match snd signed with
    | String z (String x rest) =>
        if Ascii.eqb z "0" && (Ascii.eqb x "x" || Ascii.eqb x "X")
        then (16%Z, rest)
        else (10%Z, snd signed)
    | _ => (10%Z, snd signed)
    end in
  match parseDigits (fst prefixed) (snd prefixed) None with
  | Some v => Some (fst signed * v)%Z
  | None => None
  end.

(** [array.includes(x)] on strings *)
Definition includes (array : list string) (x : string) : bool :=
  existsb (String.eqb x) array.

(** [array.sort(compareFn)]: the sort is stable, and [compareFn a b > 0]
    puts [a] behind [b].  With a comparator that orders by a weight, as the
    one used here, the result is determined by just that, whatever the
    algorithm; it is written as an insertion from the right. *)
Fixpoint insertSorted {A} (compareFn : A -> A -> Z) (x : A) (sorted : list A) : list A :=
  match sorted with
  | [] => [x]
  | y :: rest =>
      if (0 <? compareFn x y)%Z then y :: insertSorted compareFn x rest
      else x :: sorted
  end.

Fixpoint sort {A} (compareFn : A -> A -> Z) (array : list A) : list A :=
  match array with
  | [] => []
  | x :: rest => insertSorted compareFn x (sort compareFn rest)
  end.

End JS.

(** lodash *)
Module Lodash.

(** [uniq(array)]: the first occurrence of each value is kept, in the order
    of the array. *)
Fixpoint uniqFrom (seen : list string) (array : list string) : list string :=
  match array with
  | [] => []
  | x :: rest =>
      if JS.includes seen x then uniqFrom seen rest
      else x :: uniqFrom (x :: seen) rest
  end.

Definition uniq (array : list string) : list string := uniqFrom [] array.

End Lodash.

(* ===================================================================== *)
(** ** Data model: the parsed document ([src/project/csproj.ts])          *)
(* ===================================================================== *)

(** Every element name maps to the array of its occurrences; a name without
    occurrence is [undefined], here [None].  The values of the properties
    are strings, as [csproj.ts] declares them ([string[]]): what is stated
    below about a resolved value is stated about a string.  (For an element
    that carries an attribute xml2js gives an object in place of the string;
    such entries are outside this data model.) *)

Record PropertyGroup : Type := {
  RootNamespace : option (list string);
  TargetFramework : option (list string);
  ImplicitUsings : option (list string)
}.

(** The attributes [$] of a [Using] element. *)
Record UsingAttributes : Type := {
  Include : option string;
  Remove : option string
}.

Record Using : Type := {
  Using_attributes : option UsingAttributes
}.

Record ItemGroup : Type := {
  ItemGroup_Using : option (list Using)
}.

(** An [Import] element, with [$.Project]. *)
Record Import : Type := {
  Import_Project : string
}.

Record Project : Type := {
  Project_PropertyGroup : option (list PropertyGroup);
  Project_ItemGroup : option (list ItemGroup);
  Project_Import : option (list Import)
}.

Record Csproj : Type := {
  Csproj_Project : option Project
}.

(** [xmlContent?.Project?.PropertyGroup] and its siblings; [xmlContent] is
    [None] when the parser yields [null]. *)
Definition optProject (xmlContent : option Csproj) : option Project :=
  match xmlContent with
  | Some doc => Csproj_Project doc
  | None => None
  end.

Definition optPropertyGroup (xmlContent : option Csproj) : option (list PropertyGroup) :=
  match optProject xmlContent with
  | Some p => Project_PropertyGroup p
  | None => None
  end.

Definition optItemGroup (xmlContent : option Csproj) : option (list ItemGroup) :=
  match optProject xmlContent with
  | Some p => Project_ItemGroup p
  | None => None
  end.

Definition optImport (xmlContent : option Csproj) : option (list Import) :=
  match optProject xmlContent with
  | Some p => Project_Import p
  | None => None
  end.

(* ===================================================================== *)
(** ** Effects: events, completions and the monad of a call               *)
(* ===================================================================== *)

Inductive Event : Type :=
| ReadFile (path : string)
| ParseXml (content : string)
| LogError (message : string).

(** How a promise settles: resolved with a value, or rejected. *)
Inductive Completion (A : Type) : Type :=
| Normal (value : A)
| Throw (error : string).

Arguments Normal {A} value.
Arguments Throw {A} error.

(** A call yields the events it performed, oldest first, and how it
    settled. *)
Definition Async (A : Type) : Type := (list Event * Completion A)%type.

Definition ret {A} (a : A) : Async A := ([], Normal a).

Definition bind {A B} (m : Async A) (k : A -> Async B) : Async B :=
  match m with
  | (t, Normal a) => let (t', r) := k a in ((t ++ t')%list, r)
  | (t, Throw e) => (t, Throw e)
  end.

(** [try { body } catch (err) { handler }] *)
Definition tryCatch {A} (body : Async A) (handler : string -> Async A) : Async A :=
  match body with
  | (t, Normal a) => (t, Normal a)
  | (t, Throw e) => let (t', r) := handler e in ((t ++ t')%list, r)
  end.

Definition emit {A} (ev : Event) (c : Completion A) : Async A := ([ev], c).

Definition events {A} (m : Async A) : list Event := fst m.
Definition completion {A} (m : Async A) : Completion A := snd m.

Declare Scope async_scope.
Delimit Scope async_scope with async.
Notation "x <- m ;; k" := (bind m (fun x => k))
  (at level 61, m at next level, right associativity) : async_scope.
Notation "m ;;; k" := (bind m (fun _ => k))
  (at level 61, right associativity) : async_scope.
Open Scope async_scope.

(** The collaborators of the reader. *)
Inductive Platform : Type := Posix | Win32.

Record Host : Type := {
  (** [FileHandler.read(path)] *)
  FileHandler_read : string -> Completion string;
  (** [Parser.parseStringPromise(content)]; [Normal None] is [null] *)
  parseStringPromise : string -> Completion (option Csproj);
  platform : Platform;
  (** [path.resolve(from, to)] and [path.dirname(p)] *)
  path_resolve : string -> string -> string;
  path_dirname : string -> string
}.

(** [path.sep] *)
Definition path_sep (h : Host) : string :=
  match platform h with
  | Posix => "/"
  | Win32 => "\"
  end.

(** [Logger.error(message)] *)
Definition Logger_error (message : string) : Async unit :=
  emit (LogError message) (Normal tt).

(* ===================================================================== *)
(** ** The reader ([CsprojReader])                                        *)
(* ===================================================================== *)

(** [x !== undefined], and the truthiness of an array or object. *)
Definition isDefined {A} (o : option A) : bool :=
  match o with Some _ => true | None => false end.

(** [arr[0]] *)
Definition first {A} (arr : list A) : option A := nth_error arr 0.

(** [u.$?.Include] and [u.$?.Remove] *)
Definition optInclude (u : Using) : option string :=
  match Using_attributes u with Some a => Include a | None => None end.

Definition optRemove (u : Using) : option string :=
  match Using_attributes u with Some a => Remove a | None => None end.

(** The cast [x as string] of a value the preceding filter left defined. *)
Definition asString (o : option string) : string :=
  match o with Some s => s | None => EmptyString end.

Section CsprojReader.

Variable host : Host.
(** [this.filePath], bound by the constructor *)
Variable filePath : string.

(** [getContent(filePath?)] *)
Definition getContent (path : option string) : Async string :=
  let p := match path with Some p => p | None => filePath end in
  emit (ReadFile p) (FileHandler_read host p).

(** [getXmlContent(filePath?)] *)
Definition getXmlContent (path : option string) : Async (option Csproj) :=
  content <- getContent path ;;
  emit (ParseXml content) (parseStringPromise host content).

(** The path of the import target, lines 465-466 of [getPropertyGroups]. *)
Definition cleanPath (imp : Import) : string :=
  JS.replace "/" (path_sep host) (JS.replace "\" (path_sep host) (Import_Project imp)).

Definition projectPath (imp : Import) : string :=
  path_resolve host (path_dirname host filePath) (cleanPath imp).

(** [getPropertyGroups()] *)
Definition getPropertyGroups : Async (option (list PropertyGroup)) :=
  xmlContent <- getXmlContent None ;;
  match optPropertyGroup xmlContent with
  | Some groups => ret (Some groups)
  | None =>
      match optImport xmlContent with
      | None | Some [] => ret None
      | Some (imp :: _) =>
          importXmlContent <- getXmlContent (Some (projectPath imp)) ;;
          ret (optPropertyGroup importXmlContent)
      end
  end.

(** [catch (errParsingXml) { Logger.error(...) }] followed by [return;] *)
Definition logParsingError {A} (absent : A) (errParsingXml : string) : Async A :=
  Logger_error ("Error parsing project xml: " ++ errParsingXml) ;;;
  ret absent.

(** [propertyGroups?.find(p => p.X)] *)
Definition findGroup {A} (field : PropertyGroup -> option A)
           (propertyGroups : option (list PropertyGroup)) : option PropertyGroup :=
  match propertyGroups with
  | Some groups => find (fun p => isDefined (field p)) groups
  | None => None
  end.

(** [getRootNamespace()] *)
Definition getRootNamespace : Async (option string) :=
  tryCatch
    (propertyGroups <- getPropertyGroups ;;
     let propertyGroupWithRootNamespace := findGroup RootNamespace propertyGroups in
     match propertyGroupWithRootNamespace with
     | None => ret None
     | Some g =>
         match RootNamespace g with
         | None => ret None
         | Some values => ret (first values)
         end
     end)
    (logParsingError None).

(** [getTargetFramework()] *)
Definition getTargetFramework : Async (option string) :=
  tryCatch
    (propertyGroups <- getPropertyGroups ;;
     let propertyGroupWithTargetFramework := findGroup TargetFramework propertyGroups in
     match propertyGroupWithTargetFramework with
     | None => ret None
     | Some g =>
         match TargetFramework g with
         | None => ret None
         | Some values => ret (first values)
         end
     end)
    (logParsingError None).

(** The body of [isTargetFrameworkHigherThanOrEqualToDotNet6()] once the
    target framework is a string: the guard [!targetFramework], the match
    and the comparison. *)
Definition versionIsAtLeast6 (targetFramework : string) : option bool :=
  if negb (JS.truthy targetFramework) then None
  else
    match JS.matchNetVersion targetFramework with
    | None => Some false
    | Some m =>
        if JS.Number_isNaN m then Some false
        else Some (JS.ge6 (JS.Number m))
    end.

(** [isTargetFrameworkHigherThanOrEqualToDotNet6()] *)
Definition isTargetFrameworkHigherThanOrEqualToDotNet6 : Async (option bool) :=
  targetFramework <- getTargetFramework ;;
  match targetFramework with
  | None => ret None
  | Some tf => ret (versionIsAtLeast6 tf)
  end.

(** [useImplicitUsings()] *)
Definition useImplicitUsings : Async bool :=
  found <- tryCatch
             (propertyGroups <- getPropertyGroups ;;
              ret (inr (findGroup ImplicitUsings propertyGroups)))
             (fun errParsingXml =>
                Logger_error ("Error parsing project xml: " ++ errParsingXml) ;;;
                ret (inl false)) ;;
  match found with
  | inl early => ret early
  | inr propertyGroupWithImplicitUsings =>
      match propertyGroupWithImplicitUsings with
      | None => ret false
      | Some g =>
          match ImplicitUsings g with
          | None => ret false
          | Some values =>
              match first values with
              | Some v => ret (String.eqb v "enable")
              | None => ret false
              end
          end
      end
  end.

(** [getUsings()] *)
Definition getUsings : Async (list Using) :=
  xmlContent <- getXmlContent None ;;
  match optItemGroup xmlContent with
  | None => ret []
  | Some groups =>
      let itemGroups := filter (fun g => isDefined (ItemGroup_Using g)) groups in
      ret (flat_map (fun g => match ItemGroup_Using g with
                              | None => []
                              | Some us => us
                              end) itemGroups)
  end.

(** [getUsingsInclude()] *)
Definition getUsingsInclude : Async (list string) :=
  usings <- getUsings ;;
  ret (map (fun u => asString (optInclude u))
           (filter (fun u => isDefined (Using_attributes u) && isDefined (optInclude u))
                   usings)).

(** [getUsingsRemove()] *)
Definition getUsingsRemove : Async (list string) :=
  usings <- getUsings ;;
  ret (map (fun u => asString (optRemove u))
           (filter (fun u => isDefined (Using_attributes u) && isDefined (optRemove u))
                   usings)).

End CsprojReader.

(* ===================================================================== *)
(** ** Utilities ([src/util.ts])                                          *)
(* ===================================================================== *)

Definition LF : string := String "010" EmptyString.
Definition CRLF : string := String "013" (String "010" EmptyString).

(** [os.EOL] *)
Definition os_EOL (os : Platform) : string :=
  match os with
  | Posix => LF
  | Win32 => CRLF
  end.

(** [getEolSetting(eol)] *)
Definition getEolSetting (os : Platform) (eol : string) : string :=
  if String.eqb eol LF then eol
  else if String.eqb eol CRLF then eol
  else if String.eqb eol "auto" then os_EOL os
  else os_EOL os.

(** What the logging functions do to the editor: output channels are
    numbered in the order of their creation. *)
Inductive UiEvent : Type :=
| CreateOutputChannel (name : string)
| AppendLine (channel : nat) (line : string)
| ShowErrorMessage (message : string).

Definition isCreation (ev : UiEvent) : bool :=
  match ev with CreateOutputChannel _ => true | _ => false end.

(** The module variable [logChannel] and the events so far. *)
Record UiState : Type := {
  logChannel : option nat;
  uiEvents : list UiEvent
}.

Definition initialUi : UiState := {| logChannel := None; uiEvents := [] |}.

(** [getLogChannel()] *)
Definition getLogChannel (st : UiState) : nat * UiState :=
  match logChannel st with
  | Some channel => (channel, st)
  | None =>
      let channel := List.length (filter isCreation (uiEvents st)) in
      (channel,
       {| logChannel := Some channel;
          uiEvents := (uiEvents st ++ [CreateOutputChannel "C# Extension"])%list |})
  end.

Section Logging.

(** JavaScript values as far as the logging functions look at them. *)
Variable Value : Type.
Variable truthy : Value -> bool.
Variable undefined : Value.
Variable ofString : string -> Value.
(** [JSON.stringify(v)] *)
Variable JSON_stringify : Value -> string.
(** [getInternalError()] when the value is an [ExtensionError] *)
Variable asExtensionError : Value -> option Value.
(** the object [{ error, internalError }] *)
Variable errLogOf : Value -> Value -> Value.

(** [combineMessage(message, error)] *)
Definition combineMessage (message error : Value) : string :=
  if negb (truthy error) then JSON_stringify message
  else
    let internalError :=
      match asExtensionError error with
      | Some internal => internal
      | None => undefined
      end in
    let errLogJson := JSON_stringify (errLogOf error internalError) in
    JSON_stringify message ++ " - " ++ errLogJson.

(** [log(message, error)] *)
Definition log (message error : Value) (st : UiState) : UiState :=
  let (channel, st1) := getLogChannel st in
  let combinedMessage := combineMessage message error in
  {| logChannel := logChannel st1;
     uiEvents := (uiEvents st1 ++ [AppendLine channel combinedMessage])%list |}.

(** [showAndLogErrorMessage(errorMessage, error)] *)
Definition showAndLogErrorMessage (errorMessage : string) (error : Value)
           (st : UiState) : UiState :=
  let st1 := log (ofString errorMessage) error st in
  let shown :=
    if truthy error then errorMessage ++ " - See extension log for more info"
    else errorMessage in
  {| logChannel := logChannel st1;
     uiEvents := (uiEvents st1 ++ [ShowErrorMessage shown])%list |}.

(** A call of one of the two exported logging functions. *)
Inductive LogCall : Type :=
| CallLog (message error : Value)
| CallShowAndLog (errorMessage : string) (error : Value).

Definition runCall (call : LogCall) (st : UiState) : UiState :=
  match call with
  | CallLog message error => log message error st
  | CallShowAndLog errorMessage error => showAndLogErrorMessage errorMessage error st
  end.

(** Calls made one after the other. *)
Definition runCalls (calls : list LogCall) (st : UiState) : UiState :=
  fold_left (fun st call => runCall call st) calls st.

(** The line a call writes to the log. *)
Definition lineOf (call : LogCall) : string :=
  match call with
  | CallLog message error => combineMessage message error
  | CallShowAndLog errorMessage error => combineMessage (ofString errorMessage) error
  end.

End Logging.

(** The lines appended to the channels, with the channel of each. *)
Definition appendedLines (t : list UiEvent) : list (nat * string) :=
  flat_map (fun ev => match ev with
                      | AppendLine channel line => [(channel, line)]
                      | _ => []
                      end) t.

(* ===================================================================== *)
(** ** The extension ([src/extension.ts])                                 *)
(* ===================================================================== *)

(** [Extension.KnownExtensionNames] *)
Definition KnownExtensionNames : list string :=
  [ "bard83.csharpextension";
    "kreativ-software.csharpextensions";
    "jsw.csharpextensions" ].

Section CurrentExtension.

(** [vscode.Extension<any>] *)
Variable VscodeExtension : Type.
(** [vscode.extensions.getExtension(name)] *)
Variable getExtension : string -> option VscodeExtension.

(** The loop of [GetCurrentVscodeExtension] over the names that are left:
    the names it asks for, and the extension at which it breaks. *)
Fixpoint probeKnownExtensions (names : list string)
  : list string * option VscodeExtension :=
  match names with
  | [] => ([], None)
  | name :: rest =>
      match getExtension name with
      | Some extension => ([name], Some extension)
      | None => let (asked, found) := probeKnownExtensions rest in (name :: asked, found)
      end
  end.

(** [Extension.GetCurrentVscodeExtension()]: from the static
    [CurrentVscodeExtension], the names asked for and the static afterwards,
    which is also what the call returns. *)
Definition GetCurrentVscodeExtension (CurrentVscodeExtension : option VscodeExtension)
  : list string * option VscodeExtension :=
  match CurrentVscodeExtension with
  | Some extension => ([], Some extension)
  | None => probeKnownExtensions KnownExtensionNames
  end.

End CurrentExtension.

(** [startExecutor], the destination shown in the input box (line 151): the
    incoming path, if any, with the first occurrence of the workspace root
    taken out. *)
Definition startExecutor_destinationPath (rootProjectPath : string)
           (maybeIncomingPath : option string) : option string :=
  match maybeIncomingPath with
  | None => None
  | Some incoming => Some (JS.replace rootProjectPath "" incoming)
  end.

(** [startExecutor], the file name: a typed [.cs] extension is cut off
    (line 173). *)
Definition startExecutor_newFilename (name : string) : string :=
  if JS.endsWith name ".cs" then substring 0 (String.length name - 3) name
  else name.

Section CustomTemplates.

(** [CustomTemplate], of which the name and the description are shown. *)
Variable CustomTemplate : Type.
Variable name : CustomTemplate -> string.
Variable description : CustomTemplate -> string.

(** The entries offered by [showQuickPick] (line 187). *)
Definition templateLabel (index : nat) (i : CustomTemplate) : string :=
  JS.natToString index ++ "-" ++ name i ++ "-" ++ description i.

Fixpoint templateLabelsFrom (index : nat) (items : list CustomTemplate) : list string :=
  match items with
  | [] => []
  | i :: rest => templateLabel index i :: templateLabelsFrom (S index) rest
  end.

Definition templateLabels (items : list CustomTemplate) : list string :=
  templateLabelsFrom 0 items.

(** [customTemplates.items[parseInt(selectedTemplate.split('-')[0])]]
    (line 194) *)
Definition startExecutor_customTemplate (items : list CustomTemplate)
           (selectedTemplate : string) : option CustomTemplate :=
  match JS.parseInt (JS.firstSegment "-" selectedTemplate) with
  | Some index => if (index <? 0)%Z then None else nth_error items (Z.to_nat index)
  | None => None
  end.

End CustomTemplates.

(** The merge of the found global usings with the project's Using items
    (lines 228-229): the includes are pushed behind the found ones, then
    duplicates and removed namespaces are dropped. *)
Definition mergeUsings (globalUsings namespaceInclude namespaceRemove : list string)
  : list string :=
  filter (fun gu => negb (JS.includes namespaceRemove gu))
         (Lodash.uniq (globalUsings ++ namespaceInclude)).

Section ExecutorUsings.

Variable host : Host.
(** [GlobalUsingFinder.find(filePath, frameworkVersion)]; [Some] is an Ok
    result *)
Variable GlobalUsingFinder_find : string -> option string -> Async (option (list string)).

(** [startExecutor], lines 214-230: from the reader found for the new file
    (its bound path, if any) and the setting [usings.implicit], the values
    [isTargetFrameworkAboveEqualNet6], [globalUsings] and
    [useImplicitUsings] handed to the templates. *)
Definition startExecutor_usings (csprojReader : option string) (usingsImplicit : bool)
  : Async (bool * list string * bool) :=
  isTargetFrameworkAboveEqualNet6 <-
    match csprojReader with
    | None => ret false
    | Some readerPath =>
        answer <- isTargetFrameworkHigherThanOrEqualToDotNet6 host readerPath ;;
        ret (match answer with Some true => true | _ => false end)
    end ;;
  match csprojReader with
  | Some readerPath =>
      if isTargetFrameworkAboveEqualNet6 then
        frameworkVersion <- getTargetFramework host readerPath ;;
        globalUsingsResult <- GlobalUsingFinder_find readerPath frameworkVersion ;;
        let globalUsings :=
          match globalUsingsResult with Some value => value | None => [] end in
        useImplicit <-
          (if usingsImplicit then useImplicitUsings host readerPath else ret false) ;;
        namespaceInclude <- getUsingsInclude host readerPath ;;
        namespaceRemove <- getUsingsRemove host readerPath ;;
        ret (isTargetFrameworkAboveEqualNet6,
             mergeUsings globalUsings namespaceInclude namespaceRemove,
             useImplicit)
      else ret (isTargetFrameworkAboveEqualNet6, [], false)
  | None => ret (isTargetFrameworkAboveEqualNet6, [], false)
  end.

End ExecutorUsings.

(** A created file, as far as [startExecutor] looks at it. *)
Record CreatedFile : Type := {
  CreatedFile_filePath : string;
  cursorPositionArray : option (list Z)
}.

(** The comparator of lines 260-265. *)
Definition compareCreatedFiles (cf1 cf2 : CreatedFile) : Z :=
  let weight1 := if JS.endsWith (CreatedFile_filePath cf1) ".cs" then 0%Z else 1%Z in
  let weight2 := if JS.endsWith (CreatedFile_filePath cf2) ".cs" then 0%Z else 1%Z in
  (weight2 - weight1)%Z.

(** [startExecutor], the order in which the created files are opened. *)
Definition startExecutor_files (created : list CreatedFile) : list CreatedFile :=
  JS.sort compareCreatedFiles created.

(* ===================================================================== *)
(** ** Test fixtures: a host built from tables                            *)
(* ===================================================================== *)

Module Fixture.

Fixpoint lookup {A} (key : string) (table : list (string * A)) : option A :=
  match table with
  | [] => None
  | (k, v) :: rest => if String.eqb k key then Some v else lookup key rest
  end.

(** The text before the last [/] of [p]. *)
Fixpoint dirname (p : string) : string :=
  match p with
  | EmptyString => EmptyString
  | String c rest =>
      match index 0 "/" rest with
      | Some _ => String c (dirname rest)
      | None => EmptyString
      end
  end.

(** The segments of a path, cut at each [/]. *)
Fixpoint segmentsFrom (current p : string) : list string :=
  match p with
  | EmptyString => [current]
  | String c rest =>
      if Ascii.eqb c "/" then current :: segmentsFrom EmptyString rest
      else segmentsFrom (current ++ String c EmptyString) rest
  end.

(** Drops empty and [.] segments and lets [..] take back the segment before
    it; [kept] holds the segments kept so far, last first. *)
Fixpoint foldSegments (kept segments : list string) : list string :=
  match segments with
  | [] => rev kept
  | segment :: rest =>
      if String.eqb segment "" || String.eqb segment "." then foldSegments kept rest
      else if String.eqb segment ".." then foldSegments (tl kept) rest
      else foldSegments (segment :: kept) rest
  end.

(** [path.resolve(dir, rel)] on a POSIX platform, for an absolute [dir]. *)
Definition resolve (dir rel : string) : string :=
  let joined := if prefix "/" rel then rel else dir ++ "/" ++ rel in
  "/" ++ String.concat "/" (foldSegments [] (segmentsFrom EmptyString joined)).

(** A host whose files and parse results are given by tables.  Reading a
    file that is not listed rejects, as does parsing a content that is
    neither empty (for which xml2js yields [null]) nor listed. *)
Definition tableHost (os : Platform) (files : list (string * string))
           (documents : list (string * Csproj)) : Host :=
  {| FileHandler_read := fun p =>
       match lookup p files with
       | Some content => Normal content
       | None => Throw ("ENOENT: no such file or directory, open '" ++ p ++ "'")
       end;
     parseStringPromise := fun content =>
       match content with
       | EmptyString => Normal None
       | _ => match lookup content documents with
              | Some doc => Normal (Some doc)
              | None => Throw "Error: not well-formed"
              end
       end;
     platform := os;
     path_resolve := resolve;
     path_dirname := dirname |}.

Definition group (rootNamespace targetFramework implicitUsings : option (list string))
  : PropertyGroup :=
  {| RootNamespace := rootNamespace;
     TargetFramework := targetFramework;
     ImplicitUsings := implicitUsings |}.

Definition emptyGroup : PropertyGroup := group None None None.

(** A document whose Project node holds property groups only. *)
Definition withGroups (groups : list PropertyGroup) : Csproj :=
  {| Csproj_Project := Some {| Project_PropertyGroup := Some groups;
                               Project_ItemGroup := None;
                               Project_Import := None |} |}.

(** A document whose Project node holds one Import only. *)
Definition withImport (reference : string) : Csproj :=
  {| Csproj_Project := Some {| Project_PropertyGroup := None;
                               Project_ItemGroup := None;
                               Project_Import := Some [ {| Import_Project := reference |} ] |} |}.

(** A host with the single file [/suite/app/app.csproj]. *)
Definition single (xml : string) (doc : Csproj) : Host :=
  tableHost Posix [("/suite/app/app.csproj", xml)] [(xml, doc)].

Definition appPath : string := "/suite/app/app.csproj".

(** [<TargetFramework>] alone in the only property group. *)
Definition targeting (targetFramework : string) : Host :=
  single ("<Project><PropertyGroup><TargetFramework>" ++ targetFramework
            ++ "</TargetFramework></PropertyGroup></Project>")
         (withGroups [group None (Some [targetFramework]) None]).

(** Three property groups: the target framework is defined by the first
    and the last, the root namespace by the last two. *)
Definition threeGroups : list PropertyGroup :=
  [ group None (Some ["net5.0"]) None;
    group (Some ["Xamarin.Forms"]) None (Some ["enable"]);
    group (Some ["System.Linq"]) (Some ["net6.0"]) None ].

Definition threeGroupsXml : string :=
  "<Project>"
    ++ "<PropertyGroup><TargetFramework>net5.0</TargetFramework></PropertyGroup>"
    ++ "<PropertyGroup><RootNamespace>Xamarin.Forms</RootNamespace>"
    ++ "<ImplicitUsings>enable</ImplicitUsings></PropertyGroup>"
    ++ "<PropertyGroup><RootNamespace>System.Linq</RootNamespace>"
    ++ "<TargetFramework>net6.0</TargetFramework></PropertyGroup>"
    ++ "</Project>".

Definition threeGroupsHost : Host := single threeGroupsXml (withGroups threeGroups).

(** The import target of the fixtures, next to the [app] directory. *)
Definition targetsReference : string := "..\Configuration.targets".
Definition targetsPath : string := "/suite/Configuration.targets".

Definition targetsXml : string :=
  "<Project><PropertyGroup></PropertyGroup><PropertyGroup></PropertyGroup>"
    ++ "<PropertyGroup><RootNamespace>System.Linq</RootNamespace>"
    ++ "<TargetFramework>net6.0</TargetFramework></PropertyGroup>"
    ++ "<Import Project='Deeper.targets'/></Project>".

(** The target has property groups and an Import of its own. *)
Definition targetsDoc : Csproj :=
  {| Csproj_Project :=
       Some {| Project_PropertyGroup :=
                 Some [emptyGroup; emptyGroup;
                       group (Some ["System.Linq"]) (Some ["net6.0"]) None];
               Project_ItemGroup := None;
               Project_Import := Some [ {| Import_Project := "Deeper.targets" |} ] |} |}.

Definition importOnlyXml : string :=
  "<Project><Import Project='..\Configuration.targets'/></Project>".

(** A root that only imports [targetsReference]. *)
Definition importingHost : Host :=
  tableHost Posix
    [(appPath, importOnlyXml); (targetsPath, targetsXml)]
    [(importOnlyXml, withImport targetsReference); (targetsXml, targetsDoc)].

Definition groupAndImportXml : string :=
  "<Project><PropertyGroup></PropertyGroup>"
    ++ "<Import Project='..\Configuration.targets'/></Project>".

(** A root with one empty property group next to the same Import. *)
Definition groupAndImportDoc : Csproj :=
  {| Csproj_Project :=
       Some {| Project_PropertyGroup := Some [emptyGroup];
               Project_ItemGroup := None;
               Project_Import := Some [ {| Import_Project := targetsReference |} ] |} |}.

Definition groupAndImportHost : Host :=
  tableHost Posix
    [(appPath, groupAndImportXml); (targetsPath, targetsXml)]
    [(groupAndImportXml, groupAndImportDoc); (targetsXml, targetsDoc)].

(** A root holding [content], which the parser rejects unless empty. *)
Definition malformedHost (content : string) : Host :=
  tableHost Posix [(appPath, content)] [].

(** [<ImplicitUsings>] alone in the only property group. *)
Definition usingImplicit (value : string) : Host :=
  single ("<Project><PropertyGroup><ImplicitUsings>" ++ value
            ++ "</ImplicitUsings></PropertyGroup></Project>")
         (withGroups [group None None (Some [value])]).

(** An Import reference with two separators of the foreign kind. *)
Definition twoBackslashes : Import :=
  {| Import_Project := "..\..\Directory.Build.props" |}.
Definition twoSlashes : Import :=
  {| Import_Project := "../../Directory.Build.props" |}.

Definition deepImportXml : string :=
  "<Project><Import Project='..\..\Directory.Build.props'/></Project>".

(** A root that imports through two backslashes, on a POSIX platform. *)
Definition deepImportHost : Host :=
  tableHost Posix [(appPath, deepImportXml)]
            [(deepImportXml, withImport (Import_Project twoBackslashes))].

(** A root with a Project node and nothing in it. *)
Definition projectOnlyXml : string := "<Project></Project>".
Definition projectOnlyDoc : Csproj :=
  {| Csproj_Project := Some {| Project_PropertyGroup := None;
                               Project_ItemGroup := None;
                               Project_Import := None |} |}.
Definition projectOnlyHost : Host := single projectOnlyXml projectOnlyDoc.

(** A root that imports [targetsReference] where no such file exists. *)
Definition danglingImportHost : Host :=
  tableHost Posix [(appPath, importOnlyXml)]
            [(importOnlyXml, withImport targetsReference)].

Definition usingItem (include remove : option string) : Using :=
  {| Using_attributes := Some {| Include := include; Remove := remove |} |}.

(** Item groups: one without Using, one with an empty Include, a bare Using
    and a Remove, one with both attributes on the same element. *)
Definition usingsXml : string :=
  "<Project><ItemGroup></ItemGroup>"
    ++ "<ItemGroup><Using Include=''/><Using/><Using Remove='System.Linq'/></ItemGroup>"
    ++ "<ItemGroup><Using Include='Xamarin.Forms' Remove='System.IO'/></ItemGroup>"
    ++ "</Project>".

Definition usingsGroups : list ItemGroup :=
  [ {| ItemGroup_Using := None |};
    {| ItemGroup_Using := Some [ usingItem (Some "") None;
                                 {| Using_attributes := None |};
                                 usingItem None (Some "System.Linq") ] |};
    {| ItemGroup_Using := Some [ usingItem (Some "Xamarin.Forms") (Some "System.IO") ] |} ].

Definition usingsHost : Host :=
  single usingsXml
         {| Csproj_Project := Some {| Project_PropertyGroup := None;
                                      Project_ItemGroup := Some usingsGroups;
                                      Project_Import := None |} |}.

(** A .NET 6 project with implicit usings and the Using items of
    [usingsGroups]. *)
Definition net6ProjectXml : string :=
  "<Project><PropertyGroup><TargetFramework>net6.0</TargetFramework>"
    ++ "<ImplicitUsings>enable</ImplicitUsings></PropertyGroup>"
    ++ "<ItemGroup></ItemGroup>"
    ++ "<ItemGroup><Using Include=''/><Using/><Using Remove='System.Linq'/></ItemGroup>"
    ++ "<ItemGroup><Using Include='Xamarin.Forms' Remove='System.IO'/></ItemGroup>"
    ++ "</Project>".

Definition net6ProjectHost : Host :=
  single net6ProjectXml
         {| Csproj_Project :=
              Some {| Project_PropertyGroup :=
                        Some [group None (Some ["net6.0"]) (Some ["enable"])];
                      Project_ItemGroup := Some usingsGroups;
                      Project_Import := None |} |}.

(** A search for global usings that finds four, one of them twice, and one
    that is rejected. *)
Definition foundGlobalUsings (readerPath : string) (frameworkVersion : option string)
  : Async (option (list string)) :=
  ret (Some ["System"; "System.IO"; "System.Linq"; "System"]).

Definition failingGlobalUsings (readerPath : string) (frameworkVersion : option string)
  : Async (option (list string)) :=
  ([], Throw "EACCES: permission denied").

End Fixture.

(* ===================================================================== *)
(** ** Vocabulary of the statements                                       *)
(* ===================================================================== *)

(** In [groups], the first group in document order that defines [field] is
    the one at index [i], and the value it gives is [v]. *)
Definition FirstDefinedAt (field : PropertyGroup -> option (list string))
           (groups : list PropertyGroup) (i : nat) (v : string) : Prop :=
  (exists g rest, nth_error groups i = Some g /\ field g = Some (v :: rest)) /\
  (forall j g', j < i -> nth_error groups j = Some g' -> field g' = None).

(** No group of [groups] defines [field]. *)
Definition NoneDefines (field : PropertyGroup -> option (list string))
           (groups : list PropertyGroup) : Prop :=
  forall g, In g groups -> field g = None.

(** What the three scalar queries compute from the property groups they
    obtained: the common tail of their [try] blocks. *)
Definition scalarOf (field : PropertyGroup -> option (list string))
           (propertyGroups : option (list PropertyGroup)) : option string :=
  match findGroup field propertyGroups with
  | None => None
  | Some g => match field g with
              | None => None
              | Some values => first values
              end
  end.

(** The root document loads and parses to [xml]. *)
Definition RootParsesTo (host : Host) (filePath content : string)
           (xml : option Csproj) : Prop :=
  FileHandler_read host filePath = Normal content /\
  parseStringPromise host content = Normal xml.

(** The events of a call that loads and parses the root document only. *)
Definition rootOnly (filePath content : string) : list Event :=
  [ReadFile filePath; ParseXml content].

(** The parser finds no Project node in [content]: it rejects it, yields
    [null], or yields a tree without a Project. *)
Definition NoProjectIn (host : Host) (content : string) : Prop :=
  forall xml, parseStringPromise host content = Normal xml -> optProject xml = None.

(** The contents of [invalidCsProjFixtures]. *)
Definition malformedContents : list string :=
  [""; "<"; "<>"; "/>"; "<lorem>"; "</lorem>"; "lorem ipsum"].

(** Number of dots in a string. *)
Fixpoint countDots (s : string) : nat :=
  match s with
  | EmptyString => 0
  | String c rest => (if Ascii.eqb c "." then 1 else 0) + countDots rest
  end.

(** [c] occurs in [s]. *)
Fixpoint occurs (c : ascii) (s : string) : bool :=
  match s with
  | EmptyString => false
  | String a rest => Ascii.eqb a c || occurs c rest
  end.

(** [s] has the shape [\d+(\.\d+)*]. *)
Fixpoint versionShaped (s : string) (afterDigit : bool) : bool :=
  match s with
  | EmptyString => afterDigit
  | String c rest =>
      if JS.isDigit c then versionShaped rest true
      else Ascii.eqb c "." && afterDigit && versionShaped rest false
  end.

(** A file read, and a logged error. *)
Definition isRead (ev : Event) : bool :=
  match ev with ReadFile _ => true | _ => false end.

Definition isLog (ev : Event) : bool :=
  match ev with LogError _ => true | _ => false end.

(** The values of one attribute over every Using element of every item
    group, in document order; an element without the attribute gives
    nothing. *)
Definition attributeValues (attribute : UsingAttributes -> option string)
           (groups : list ItemGroup) : list string :=
  flat_map
    (fun g =>
       flat_map
         (fun u => match Using_attributes u with
                   | Some a => match attribute a with
                               | Some v => [v]
                               | None => []
                               end
                   | None => []
                   end)
         (match ItemGroup_Using g with Some us => us | None => [] end))
    groups.

(** Upper-casing of the ASCII letters of a string. *)
Definition asciiUpper (c : ascii) : ascii :=
  if (97 <=? nat_of_ascii c)%nat && (nat_of_ascii c <=? 122)%nat
  then ascii_of_nat (nat_of_ascii c - 32)
  else c.

Fixpoint upper (s : string) : string :=
  match s with
  | EmptyString => EmptyString
  | String c rest => String (asciiUpper c) (upper rest)
  end.

(** Decimal numerals: all characters are digits, and the number they
    write. *)
Fixpoint allDigits (s : string) : bool :=
  match s with
  | EmptyString => true
  | String c rest => JS.isDigit c && allDigits rest
  end.

Fixpoint digitsValueFrom (acc : Z) (s : string) : Z :=
  match s with
  | EmptyString => acc
  | String c rest => digitsValueFrom (10 * acc + JS.digitValue c) rest
  end.

Definition digitsValue (s : string) : Z := digitsValueFrom 0 s.

(** What may follow a version run without extending it: nothing, or a text
    that starts with neither a digit nor a dot (as in [net8.0-windows]). *)
Definition endsRun (suffix : string) : bool :=
  match suffix with
  | EmptyString => true
  | String c _ => negb (JS.isDigit c) && negb (Ascii.eqb c ".")
  end.

(* ===================================================================== *)
(** ** Running the reader                                                 *)
(* ===================================================================== *)

Section Runs.

Variable host : Host.
Variable filePath : string.

Lemma getXmlContent_root content xml :
  RootParsesTo host filePath content xml ->
  getXmlContent host filePath None = (rootOnly filePath content, Normal xml).
Proof.
  intros [Hread Hparse]. unfold getXmlContent, getContent, bind, emit.
  rewrite Hread, Hparse. reflexivity.
Qed.

Lemma getXmlContent_at p content xml :
  FileHandler_read host p = Normal content ->
  parseStringPromise host content = Normal xml ->
  getXmlContent host filePath (Some p) = ([ReadFile p; ParseXml content], Normal xml).
Proof.
  intros Hread Hparse. unfold getXmlContent, getContent, bind, emit.
  rewrite Hread, Hparse. reflexivity.
Qed.

(** With property groups in the root document, nothing else is loaded. *)
Lemma getPropertyGroups_own content xml groups :
  RootParsesTo host filePath content xml ->
  optPropertyGroup xml = Some groups ->
  getPropertyGroups host filePath = (rootOnly filePath content, Normal (Some groups)).
Proof.
  intros Hroot Hgroups. unfold getPropertyGroups.
  rewrite (getXmlContent_root _ _ Hroot). cbn. rewrite Hgroups. reflexivity.
Qed.

(** Without property groups and with an Import, the target is loaded and
    its property groups are returned as they are. *)
Lemma getPropertyGroups_imported content xml imp others content' xml' :
  RootParsesTo host filePath content xml ->
  optPropertyGroup xml = None ->
  optImport xml = Some (imp :: others) ->
  FileHandler_read host (projectPath host filePath imp) = Normal content' ->
  parseStringPromise host content' = Normal xml' ->
  getPropertyGroups host filePath =
    ((rootOnly filePath content
        ++ [ReadFile (projectPath host filePath imp); ParseXml content'])%list,
     Normal (optPropertyGroup xml')).
Proof.
  intros Hroot Hgroups Himport Hread Hparse. unfold getPropertyGroups.
  rewrite (getXmlContent_root _ _ Hroot). unfold bind at 1.
  rewrite Hgroups, Himport, (getXmlContent_at _ _ _ Hread Hparse). reflexivity.
Qed.

(** A document in which the parser finds no Project settles the lookup at
    once: the root is the only file touched and no group comes out. *)
Lemma getPropertyGroups_no_project content :
  FileHandler_read host filePath = Normal content ->
  NoProjectIn host content ->
  exists t, getPropertyGroups host filePath = (t, Normal None) \/
            exists e, getPropertyGroups host filePath = (t, Throw e).
Proof.
  intros Hread Hno. unfold getPropertyGroups, getXmlContent, getContent, bind, emit.
  rewrite Hread. destruct (parseStringPromise host content) as [xml|e] eqn:Hparse.
  - specialize (Hno xml Hparse). unfold optPropertyGroup, optImport.
    rewrite Hno. cbn. eexists; left; reflexivity.
  - eexists; right; eexists; reflexivity.
Qed.

(** Each scalar query is its property-group lookup followed by
    [scalarOf]; a rejected lookup is logged and becomes the absent
    result. *)
Lemma getRootNamespace_run :
  getRootNamespace host filePath =
    match getPropertyGroups host filePath with
    | (t, Normal pg) => (t, Normal (scalarOf RootNamespace pg))
    | (t, Throw e) =>
        ((t ++ [LogError ("Error parsing project xml: " ++ e)])%list, Normal None)
    end.
Proof.
  unfold getRootNamespace, tryCatch, bind, scalarOf.
  destruct (getPropertyGroups host filePath) as [t [pg|e]]; [|reflexivity].
  destruct (findGroup RootNamespace pg) as [g|]; cbn; [|now rewrite app_nil_r].
  destruct (RootNamespace g); cbn; now rewrite app_nil_r.
Qed.

Lemma getTargetFramework_run :
  getTargetFramework host filePath =
    match getPropertyGroups host filePath with
    | (t, Normal pg) => (t, Normal (scalarOf TargetFramework pg))
    | (t, Throw e) =>
        ((t ++ [LogError ("Error parsing project xml: " ++ e)])%list, Normal None)
    end.
Proof.
  unfold getTargetFramework, tryCatch, bind, scalarOf.
  destruct (getPropertyGroups host filePath) as [t [pg|e]]; [|reflexivity].
  destruct (findGroup TargetFramework pg) as [g|]; cbn; [|now rewrite app_nil_r].
  destruct (TargetFramework g); cbn; now rewrite app_nil_r.
Qed.

Lemma useImplicitUsings_run :
  useImplicitUsings host filePath =
    match getPropertyGroups host filePath with
    | (t, Normal pg) =>
        (t, Normal (match scalarOf ImplicitUsings pg with
                    | Some v => String.eqb v "enable"
                    | None => false
                    end))
    | (t, Throw e) =>
        ((t ++ [LogError ("Error parsing project xml: " ++ e)])%list, Normal false)
    end.
Proof.
  unfold useImplicitUsings, tryCatch, bind, scalarOf.
  destruct (getPropertyGroups host filePath) as [t [pg|e]]; cbn.
  - destruct (findGroup ImplicitUsings pg) as [g|]; cbn; [|now rewrite ?app_nil_r].
    destruct (ImplicitUsings g) as [[|v values]|]; cbn; now rewrite ?app_nil_r.
  - now rewrite ?app_nil_r.
Qed.

Lemma isTargetFramework_run :
  isTargetFrameworkHigherThanOrEqualToDotNet6 host filePath =
    match getTargetFramework host filePath with
    | (t, Normal None) => (t, Normal None)
    | (t, Normal (Some tf)) => (t, Normal (versionIsAtLeast6 tf))
    | (t, Throw e) => (t, Throw e)
    end.
Proof.
  unfold isTargetFrameworkHigherThanOrEqualToDotNet6, bind.
  destruct (getTargetFramework host filePath) as [t [[tf|]|e]]; cbn;
    now rewrite ?app_nil_r.
Qed.

End Runs.

(* ===================================================================== *)
(** ** First match in document order                                      *)
(* ===================================================================== *)

Section FirstMatch.

Variable field : PropertyGroup -> option (list string).

Lemma find_first_defined groups : forall i g,
  nth_error groups i = Some g ->
  isDefined (field g) = true ->
  (forall j g', j < i -> nth_error groups j = Some g' -> field g' = None) ->
  find (fun p => isDefined (field p)) groups = Some g.
Proof.
  induction groups as [|g0 groups IH]; intros [|i] g Hnth Hdef Hbefore;
    simpl in Hnth; try discriminate.
  - injection Hnth as ->. simpl. now rewrite Hdef.
  - simpl. rewrite (Hbefore 0 g0 (Nat.lt_0_succ i) eq_refl). simpl.
    apply (IH i g Hnth Hdef). intros j g' Hj Hg'.
    apply (Hbefore (S j) g'); [lia | exact Hg'].
Qed.

Lemma scalarOf_first groups i v :
  FirstDefinedAt field groups i v -> scalarOf field (Some groups) = Some v.
Proof.
  intros [(g & rest & Hnth & Hval) Hbefore]. unfold scalarOf, findGroup.
  rewrite (find_first_defined groups i g Hnth); [|now rewrite Hval|exact Hbefore].
  now rewrite Hval.
Qed.

Lemma scalarOf_none groups :
  NoneDefines field groups -> scalarOf field (Some groups) = None.
Proof.
  intros Hnone. unfold scalarOf, findGroup.
  destruct (find _ groups) as [g|] eqn:Hfind; [|reflexivity].
  apply find_some in Hfind as [Hin _]. now rewrite (Hnone g Hin).
Qed.

Lemma scalarOf_absent : scalarOf field None = None.
Proof. reflexivity. Qed.

(** Conversely a value only ever comes from the first defining group. *)
Lemma scalarOf_inv groups v :
  scalarOf field (Some groups) = Some v -> exists i, FirstDefinedAt field groups i v.
Proof.
  unfold scalarOf, findGroup. induction groups as [|g0 groups IH]; simpl; [discriminate|].
  destruct (field g0) as [values|] eqn:Hg0; simpl.
  - rewrite Hg0. destruct values as [|v0 rest]; simpl; [discriminate|].
    intros [= ->]. exists 0. split.
    + exists g0, rest. now split.
    + intros j g' Hj. lia.
  - intros Hv. destruct (IH Hv) as [i [(g & rest & Hnth & Hval) Hbefore]].
    exists (S i). split.
    + exists g, rest. now split.
    + intros [|j] g' Hj Hg'; simpl in Hg'.
      * now injection Hg' as <-.
      * apply (Hbefore j g'); [lia | exact Hg'].
Qed.

Lemma FirstDefinedAt_unique groups i j v w :
  FirstDefinedAt field groups i v -> FirstDefinedAt field groups j w -> v = w.
Proof.
  intros Hv Hw. apply scalarOf_first in Hv, Hw. congruence.
Qed.

End FirstMatch.

(** Settles [FirstDefinedAt field groups i v] on a literal list of groups:
    [g] is the group at index [i] and [rest] the further values it gives. *)
Ltac first_defined_at g rest :=
  split;
  [ exists g, rest; split; reflexivity
  | let j := fresh "j" in
    let g' := fresh "g'" in
    let Hj := fresh "Hj" in
    let Hg' := fresh "Hg'" in
    intros j g' Hj Hg';
    repeat (destruct j as [|j];
            [ simpl in Hg'; injection Hg' as <-; reflexivity | ]);
    lia ].

(* ===================================================================== *)
(** ** Scalar properties: the document's own groups and the Import hop    *)
(* ===================================================================== *)

(** C1.  In a document that parses and whose Project node has property
    groups, [getRootNamespace] and [getTargetFramework] return the value the
    first group defining the property gives it, whatever the other groups
    (the earlier ones for other properties, the later ones for any) define;
    when no group defines the property the result is absent. *)
Theorem first_defining_group_wins :
  forall host filePath content doc project groups,
    RootParsesTo host filePath content (Some doc) ->
    Csproj_Project doc = Some project ->
    Project_PropertyGroup project = Some groups ->
    (forall i v, FirstDefinedAt RootNamespace groups i v ->
                 completion (getRootNamespace host filePath) = Normal (Some v)) /\
    (forall i v, FirstDefinedAt TargetFramework groups i v ->
                 completion (getTargetFramework host filePath) = Normal (Some v)) /\
    (NoneDefines RootNamespace groups ->
     completion (getRootNamespace host filePath) = Normal None) /\
    (NoneDefines TargetFramework groups ->
     completion (getTargetFramework host filePath) = Normal None).
Proof.
  intros host filePath content doc project groups Hroot Hproject Hgroups.
  assert (Hown : getPropertyGroups host filePath
                 = (rootOnly filePath content, Normal (Some groups))).
  { apply (getPropertyGroups_own host filePath content (Some doc)); [exact Hroot|].
    unfold optPropertyGroup, optProject. now rewrite Hproject. }
  rewrite getRootNamespace_run, getTargetFramework_run, Hown. unfold completion; simpl.
  repeat split.
  - intros i v H. now rewrite (scalarOf_first _ _ _ _ H).
  - intros i v H. now rewrite (scalarOf_first _ _ _ _ H).
  - intros H. now rewrite (scalarOf_none _ _ H).
  - intros H. now rewrite (scalarOf_none _ _ H).
Qed.

Lemma first_defining_group_wins_witness :
  completion (getRootNamespace Fixture.threeGroupsHost Fixture.appPath)
    = Normal (Some "Xamarin.Forms") /\
  completion (getTargetFramework Fixture.threeGroupsHost Fixture.appPath)
    = Normal (Some "net5.0") /\
  completion (getRootNamespace (Fixture.single "<Project><PropertyGroup/></Project>"
                                  (Fixture.withGroups [Fixture.emptyGroup]))
                               Fixture.appPath)
    = Normal None.
Proof.
  destruct (first_defining_group_wins
              Fixture.threeGroupsHost Fixture.appPath Fixture.threeGroupsXml
              (Fixture.withGroups Fixture.threeGroups) _ Fixture.threeGroups
              (conj eq_refl eq_refl) eq_refl eq_refl) as (Hnamespace & Hframework & _ & _).
  destruct (first_defining_group_wins
              (Fixture.single "<Project><PropertyGroup/></Project>"
                 (Fixture.withGroups [Fixture.emptyGroup]))
              Fixture.appPath "<Project><PropertyGroup/></Project>"
              (Fixture.withGroups [Fixture.emptyGroup]) _ [Fixture.emptyGroup]
              (conj eq_refl eq_refl) eq_refl eq_refl) as (_ & _ & Hnone & _).
  split; [|split].
  - apply (Hnamespace 1).
    first_defined_at (Fixture.group (Some ["Xamarin.Forms"]) None (Some ["enable"]))
                     (@nil string).
  - apply (Hframework 0).
    first_defined_at (Fixture.group None (Some ["net5.0"]) None) (@nil string).
  - apply Hnone. intros g [<-|[]]. reflexivity.
Defined.

(** C2.  When the root document has property groups, nothing but the root
    document is loaded or parsed: a lookup that touches anything else had a
    root without property groups.  In particular a property that none of the
    groups defines is absent (false for the implicit-usings flag), with the
    Import target neither loaded nor parsed. *)
Theorem import_only_without_property_groups :
  forall host filePath content xml,
    RootParsesTo host filePath content xml ->
    (events (getPropertyGroups host filePath) <> rootOnly filePath content ->
     optPropertyGroup xml = None) /\
    (forall groups,
        optPropertyGroup xml = Some groups ->
        (NoneDefines RootNamespace groups ->
         getRootNamespace host filePath = (rootOnly filePath content, Normal None)) /\
        (NoneDefines TargetFramework groups ->
         getTargetFramework host filePath = (rootOnly filePath content, Normal None)) /\
        (NoneDefines ImplicitUsings groups ->
         useImplicitUsings host filePath = (rootOnly filePath content, Normal false))).
Proof.
  intros host filePath content xml Hroot. split.
  - intros Hmore. destruct (optPropertyGroup xml) as [groups|] eqn:Hgroups; [|reflexivity].
    exfalso. apply Hmore.
    now rewrite (getPropertyGroups_own host filePath content xml groups Hroot Hgroups).
  - intros groups Hgroups.
    pose proof (getPropertyGroups_own host filePath content xml groups Hroot Hgroups) as Hown.
    rewrite getRootNamespace_run, getTargetFramework_run, useImplicitUsings_run, Hown.
    repeat split; intros H; now rewrite (scalarOf_none _ _ H).
Qed.

Lemma import_only_without_property_groups_witness :
  getRootNamespace Fixture.groupAndImportHost Fixture.appPath
    = (rootOnly Fixture.appPath Fixture.groupAndImportXml, Normal None) /\
  getTargetFramework Fixture.groupAndImportHost Fixture.appPath
    = (rootOnly Fixture.appPath Fixture.groupAndImportXml, Normal None) /\
  useImplicitUsings Fixture.groupAndImportHost Fixture.appPath
    = (rootOnly Fixture.appPath Fixture.groupAndImportXml, Normal false) /\
  (events (getPropertyGroups Fixture.importingHost Fixture.appPath)
     <> rootOnly Fixture.appPath Fixture.importOnlyXml /\
   optPropertyGroup (Some (Fixture.withImport Fixture.targetsReference)) = None).
Proof.
  destruct (import_only_without_property_groups
              Fixture.groupAndImportHost Fixture.appPath Fixture.groupAndImportXml
              (Some Fixture.groupAndImportDoc) (conj eq_refl eq_refl)) as [_ Hgroups].
  destruct (Hgroups [Fixture.emptyGroup] eq_refl) as (Hnamespace & Hframework & Husings).
  destruct (import_only_without_property_groups
              Fixture.importingHost Fixture.appPath Fixture.importOnlyXml
              (Some (Fixture.withImport Fixture.targetsReference))
              (conj eq_refl eq_refl)) as [Honly _].
  assert (Hmore : events (getPropertyGroups Fixture.importingHost Fixture.appPath)
                  <> rootOnly Fixture.appPath Fixture.importOnlyXml)
    by (vm_compute; discriminate).
  split; [|split; [|split; [|split]]].
  - apply Hnamespace. intros g [<-|[]]. reflexivity.
  - apply Hframework. intros g [<-|[]]. reflexivity.
  - apply Husings. intros g [<-|[]]. reflexivity.
  - exact Hmore.
  - exact (Honly Hmore).
Defined.



(* ===================================================================== *)
(** ** The queries never reject                                           *)
(* ===================================================================== *)

Section Totality.

Variable host : Host.
Variable filePath : string.

Lemma getRootNamespace_settles :
  exists r, completion (getRootNamespace host filePath) = Normal r.
Proof.
  rewrite getRootNamespace_run.
  destruct (getPropertyGroups host filePath) as [t [pg|e]]; eexists; reflexivity.
Qed.

Lemma getTargetFramework_settles :
  exists r, completion (getTargetFramework host filePath) = Normal r.
Proof.
  rewrite getTargetFramework_run.
  destruct (getPropertyGroups host filePath) as [t [pg|e]]; eexists; reflexivity.
Qed.

Lemma useImplicitUsings_settles :
  exists b, completion (useImplicitUsings host filePath) = Normal b.
Proof.
  rewrite useImplicitUsings_run.
  destruct (getPropertyGroups host filePath) as [t [pg|e]]; eexists; reflexivity.
Qed.

(** Without a Project node every scalar query gives its absent value. *)
Lemma scalars_absent_without_project content :
  FileHandler_read host filePath = Normal content ->
  NoProjectIn host content ->
  completion (getRootNamespace host filePath) = Normal None /\
  completion (getTargetFramework host filePath) = Normal None /\
  completion (useImplicitUsings host filePath) = Normal false.
Proof.
  intros Hread Hno.
  destruct (getPropertyGroups_no_project host filePath content Hread Hno)
    as [t [Hpg | [e Hpg]]];
    rewrite getRootNamespace_run, getTargetFramework_run, useImplicitUsings_run, Hpg;
    repeat split.
Qed.

(** A lookup that is rejected (an unreadable or malformed root or import
    target) is logged and gives the absent value. *)
Lemma rejected_lookup_is_absent e :
  completion (getPropertyGroups host filePath) = Throw e ->
  let logged := (events (getPropertyGroups host filePath)
                   ++ [LogError ("Error parsing project xml: " ++ e)])%list in
  getRootNamespace host filePath = (logged, Normal None) /\
  getTargetFramework host filePath = (logged, Normal None) /\
  useImplicitUsings host filePath = (logged, Normal false).
Proof.
  rewrite getRootNamespace_run, getTargetFramework_run, useImplicitUsings_run.
  destruct (getPropertyGroups host filePath) as [t c]. unfold completion, events. simpl.
  intros ->. repeat split.
Qed.

End Totality.

(** C5.  For each of the seven malformed contents of the test suite, in
    which the parser finds no Project node (it rejects the content or yields
    nothing), [getRootNamespace] and [getTargetFramework] settle on absent,
    [useImplicitUsings] on false and the framework comparison on absent: the
    calls return normally, nothing is thrown to the caller. *)
Theorem malformed_content_is_absent :
  forall host filePath content,
    In content malformedContents ->
    FileHandler_read host filePath = Normal content ->
    NoProjectIn host content ->
    completion (getRootNamespace host filePath) = Normal None /\
    completion (getTargetFramework host filePath) = Normal None /\
    completion (useImplicitUsings host filePath) = Normal false /\
    completion (isTargetFrameworkHigherThanOrEqualToDotNet6 host filePath) = Normal None.
Proof.
  intros host filePath content _ Hread Hno.
  destruct (scalars_absent_without_project host filePath content Hread Hno)
    as (Hnamespace & Hframework & Husings).
  repeat split; try assumption.
  rewrite isTargetFramework_run.
  destruct (getTargetFramework host filePath) as [t c]. unfold completion in *.
  simpl in Hframework. now subst c.
Qed.

Lemma malformed_content_is_absent_witness :
  Forall (fun content =>
            completion (getRootNamespace (Fixture.malformedHost content) Fixture.appPath)
              = Normal None /\
            completion (getTargetFramework (Fixture.malformedHost content) Fixture.appPath)
              = Normal None /\
            completion (useImplicitUsings (Fixture.malformedHost content) Fixture.appPath)
              = Normal false /\
            completion (isTargetFrameworkHigherThanOrEqualToDotNet6
                          (Fixture.malformedHost content) Fixture.appPath)
              = Normal None)
         malformedContents.
Proof.
  unfold malformedContents.
  repeat (apply Forall_cons;
          [ match goal with
            | |- completion (getRootNamespace (Fixture.malformedHost ?content) _) = _ /\ _ =>
                apply (malformed_content_is_absent
                         (Fixture.malformedHost content) Fixture.appPath content);
                [ simpl; tauto
                | reflexivity
                | intros xml Hparse; simpl in Hparse;
                  first [ discriminate Hparse | injection Hparse as <-; reflexivity ] ]
            end
          | ]).
  apply Forall_nil.
Defined.

(* ===================================================================== *)
(** ** The version run and its conversion                                 *)
(* ===================================================================== *)

Lemma digit_is_not_dot c : JS.isDigit c = true -> Ascii.eqb c "." = false.
Proof.
  intros Hdigit. destruct (Ascii.eqb_spec c ".") as [->|]; [discriminate|reflexivity].
Qed.

(** What the pattern matches always has the shape [\d+(\.\d+)*]. *)
Lemma versionTail_shaped s : versionShaped (JS.versionTail s) true = true.
Proof.
  induction s as [|c rest IH]; simpl; [reflexivity|].
  destruct (JS.isDigit c) eqn:Hc; simpl.
  - now rewrite Hc.
  - destruct (Ascii.eqb c ".") eqn:Hdot; [|reflexivity].
    destruct rest as [|d rest']; [reflexivity|].
    destruct (JS.isDigit d) eqn:Hd; [|reflexivity].
    simpl. rewrite Hc, Hdot. simpl. simpl in IH. rewrite Hd in IH |- *.
    simpl in IH |- *. now rewrite Hd in IH |- *.
Qed.

Lemma versionAt_shaped s run :
  JS.versionAt s = Some run -> versionShaped run false = true.
Proof.
  destruct s as [|c rest]; simpl; [discriminate|].
  destruct (JS.isDigit c) eqn:Hc; [|discriminate].
  intros [= <-]. simpl. rewrite Hc. apply versionTail_shaped.
Qed.

Lemma matchNetVersion_shaped s : forall run,
  JS.matchNetVersion s = Some run -> versionShaped run false = true.
Proof.
  induction s as [|a tl IH]; intros run; simpl; [discriminate|].
  destruct tl as [|b [|c rest]]; try discriminate.
  destruct (JS.eqIgnoreCase "n" a && JS.eqIgnoreCase "e" b && JS.eqIgnoreCase "t" c);
    [|apply IH].
  destruct (JS.versionAt rest) as [m|] eqn:Hat; [|apply IH].
  intros [= <-]. exact (versionAt_shaped rest m Hat).
Qed.

(** The match sits right behind an occurrence of [net], in any casing. *)
Lemma matchNetVersion_behind_net s : forall run,
  JS.matchNetVersion s = Some run ->
  exists before a b c rest,
    s = before ++ String a (String b (String c rest)) /\
    JS.eqIgnoreCase "n" a = true /\ JS.eqIgnoreCase "e" b = true /\
    JS.eqIgnoreCase "t" c = true /\
    JS.versionAt rest = Some run.
Proof.
  induction s as [|a tl IH]; intros run; simpl; [discriminate|].
  assert (Hnext : JS.matchNetVersion tl = Some run ->
                  exists before a0 b c rest,
                    String a tl = before ++ String a0 (String b (String c rest)) /\
                    JS.eqIgnoreCase "n" a0 = true /\ JS.eqIgnoreCase "e" b = true /\
                    JS.eqIgnoreCase "t" c = true /\ JS.versionAt rest = Some run).
  { intros H. destruct (IH run H) as (before & a0 & b & c & rest & -> & Hrest).
    exists (String a before), a0, b, c, rest. now split. }
  destruct tl as [|b [|c rest]]; try discriminate.
  destruct (JS.eqIgnoreCase "n" a) eqn:Ha; [|exact Hnext].
  destruct (JS.eqIgnoreCase "e" b) eqn:Hb; [|exact Hnext].
  destruct (JS.eqIgnoreCase "t" c) eqn:Hc; [|exact Hnext].
  simpl. destruct (JS.versionAt rest) as [m|] eqn:Hat; [|exact Hnext].
  intros [= <-]. exists EmptyString, a, b, c, rest. now repeat split.
Qed.

(** And wherever [net] is followed by a digit there is a match. *)
Lemma matchNetVersion_finds before : forall a b c rest run,
  JS.eqIgnoreCase "n" a = true -> JS.eqIgnoreCase "e" b = true ->
  JS.eqIgnoreCase "t" c = true ->
  JS.versionAt rest = Some run ->
  exists found,
    JS.matchNetVersion (before ++ String a (String b (String c rest))) = Some found.
Proof.
  induction before as [|x before IH]; intros a b c rest run Ha Hb Hc Hat.
  - exists run. simpl. now rewrite Ha, Hb, Hc, Hat.
  - destruct (IH a b c rest run Ha Hb Hc Hat) as [found Hfound].
    change (String x before ++ String a (String b (String c rest)))
      with (String x (before ++ String a (String b (String c rest)))).
    remember (before ++ String a (String b (String c rest))) as tl eqn:Htl.
    destruct tl as [|b' [|c' rest']]; try discriminate Hfound.
    change (JS.matchNetVersion (String x (String b' (String c' rest'))))
      with (if JS.eqIgnoreCase "n" x && JS.eqIgnoreCase "e" b' && JS.eqIgnoreCase "t" c'
            then match JS.versionAt rest' with
                 | Some m => Some m
                 | None => JS.matchNetVersion (String b' (String c' rest'))
                 end
            else JS.matchNetVersion (String b' (String c' rest'))).
    destruct (JS.eqIgnoreCase "n" x && JS.eqIgnoreCase "e" b' && JS.eqIgnoreCase "t" c');
      [|now exists found].
    destruct (JS.versionAt rest') as [m|]; [now exists m | now exists found].
Qed.

(** The empty string has no match. *)
Lemma matchNetVersion_empty : JS.matchNetVersion "" = None.
Proof. reflexivity. Qed.

(** After the dot has been passed, one more dot makes the run not a
    number. *)
Lemma numberFrom_second_dot s : forall afterDigit m k,
  1 <= countDots s -> JS.numberFrom s true afterDigit m k = JS.NaN.
Proof.
  induction s as [|c rest IH]; intros afterDigit m k Hdots; simpl in *; [lia|].
  destruct (JS.isDigit c) eqn:Hc.
  - rewrite (digit_is_not_dot c Hc) in Hdots. apply IH. simpl in Hdots. lia.
  - now rewrite andb_false_r.
Qed.

Lemma numberFrom_two_dots s : forall seenDot afterDigit m k,
  2 <= countDots s -> JS.numberFrom s seenDot afterDigit m k = JS.NaN.
Proof.
  induction s as [|c rest IH]; intros seenDot afterDigit m k Hdots; simpl in *; [lia|].
  destruct (JS.isDigit c) eqn:Hc.
  - rewrite (digit_is_not_dot c Hc) in Hdots. apply IH. simpl in Hdots. lia.
  - destruct (Ascii.eqb c "." && negb seenDot && afterDigit) eqn:Hcond; [|reflexivity].
    apply numberFrom_second_dot.
    destruct (Ascii.eqb c "."); simpl in Hdots; lia.
Qed.

(** A run with two or more dots converts to NaN. *)
Lemma Number_two_dots run : 2 <= countDots run -> JS.Number run = JS.NaN.
Proof. apply numberFrom_two_dots. Qed.

(** A well-shaped run with at most one dot converts to a decimal. *)
Lemma numberFrom_decimal s : forall (seenDot afterDigit : bool) m k,
  versionShaped s afterDigit = true ->
  countDots s + (if seenDot then 1 else 0) <= 1 ->
  exists m' k', JS.numberFrom s seenDot afterDigit m k = JS.Decimal m' k'.
Proof.
  induction s as [|c rest IH]; intros seenDot afterDigit m k Hshape Hdots; simpl in *.
  - rewrite Hshape. exists m, k. reflexivity.
  - destruct (JS.isDigit c) eqn:Hc.
    + rewrite (digit_is_not_dot c Hc) in Hdots. now apply IH.
    + apply andb_prop in Hshape as [Hshape Hrest].
      apply andb_prop in Hshape as [Hdot Hafter].
      rewrite Hdot in Hdots |- *. rewrite Hafter.
      destruct seenDot; simpl in Hdots; [lia|]. simpl.
      apply IH; [exact Hrest | lia].
Qed.

(** So, on what the pattern matches, NaN means exactly: two dots or more. *)
Lemma Number_NaN_iff run :
  versionShaped run false = true ->
  (JS.Number run = JS.NaN <-> 2 <= countDots run).
Proof.
  intros Hshape. split; [|apply Number_two_dots].
  intros Hnan. destruct (le_lt_dec 2 (countDots run)) as [|Hfew]; [assumption|].
  destruct (numberFrom_decimal run false false 0%Z 0 Hshape) as (m' & k' & Hdec); [lia|].
  unfold JS.Number in Hnan. congruence.
Qed.

(* ===================================================================== *)
(** ** The framework comparison                                           *)
(* ===================================================================== *)

Section Comparison.

Variable host : Host.
Variable filePath : string.

Lemma comparison_of_resolved tf :
  completion (getTargetFramework host filePath) = Normal (Some tf) ->
  completion (isTargetFrameworkHigherThanOrEqualToDotNet6 host filePath)
    = Normal (versionIsAtLeast6 tf).
Proof.
  rewrite isTargetFramework_run.
  destruct (getTargetFramework host filePath) as [t c]. unfold completion. simpl.
  now intros ->.
Qed.

Lemma comparison_of_absent :
  completion (getTargetFramework host filePath) = Normal None ->
  completion (isTargetFrameworkHigherThanOrEqualToDotNet6 host filePath) = Normal None.
Proof.
  rewrite isTargetFramework_run.
  destruct (getTargetFramework host filePath) as [t c]. unfold completion. simpl.
  now intros ->.
Qed.

End Comparison.

Lemma versionIsAtLeast6_unmatched tf :
  tf <> "" -> JS.matchNetVersion tf = None -> versionIsAtLeast6 tf = Some false.
Proof.
  intros Hne Hmatch. unfold versionIsAtLeast6. rewrite Hmatch.
  destruct tf; [contradiction|reflexivity].
Qed.

Lemma versionIsAtLeast6_NaN tf run :
  JS.matchNetVersion tf = Some run -> JS.Number run = JS.NaN ->
  versionIsAtLeast6 tf = Some false.
Proof.
  intros Hmatch Hnan. unfold versionIsAtLeast6. rewrite Hmatch, Hnan.
  destruct tf; [discriminate|reflexivity].
Qed.

(** C6.  The comparison gives true when the resolved target framework is
    [net6.0], false when it is [net5.0] or [netcoreapp3.1], and absent,
    which is not false, when no target framework is resolved. *)
Theorem framework_comparison_table :
  forall host filePath,
    let resolved := completion (getTargetFramework host filePath) in
    let answer := completion (isTargetFrameworkHigherThanOrEqualToDotNet6 host filePath) in
    (resolved = Normal (Some "net6.0") -> answer = Normal (Some true)) /\
    (resolved = Normal (Some "net5.0") -> answer = Normal (Some false)) /\
    (resolved = Normal (Some "netcoreapp3.1") -> answer = Normal (Some false)) /\
    (resolved = Normal None -> answer = Normal None /\ answer <> Normal (Some false)).
Proof.
  intros host filePath resolved answer. subst resolved answer.
  split; [|split; [|split]]; intros H.
  - now rewrite (comparison_of_resolved _ _ _ H).
  - now rewrite (comparison_of_resolved _ _ _ H).
  - now rewrite (comparison_of_resolved _ _ _ H).
  - rewrite (comparison_of_absent _ _ H). split; [reflexivity|discriminate].
Qed.

Lemma framework_comparison_table_witness :
  completion (isTargetFrameworkHigherThanOrEqualToDotNet6
                (Fixture.targeting "net6.0") Fixture.appPath) = Normal (Some true) /\
  completion (isTargetFrameworkHigherThanOrEqualToDotNet6
                (Fixture.targeting "net5.0") Fixture.appPath) = Normal (Some false) /\
  completion (isTargetFrameworkHigherThanOrEqualToDotNet6
                (Fixture.targeting "netcoreapp3.1") Fixture.appPath) = Normal (Some false) /\
  completion (isTargetFrameworkHigherThanOrEqualToDotNet6
                (Fixture.single "<Project><PropertyGroup/></Project>"
                   (Fixture.withGroups [Fixture.emptyGroup]))
                Fixture.appPath) = Normal None.
Proof.
  split; [|split; [|split]].
  - exact (proj1 (framework_comparison_table (Fixture.targeting "net6.0") Fixture.appPath)
                 eq_refl).
  - exact (proj1 (proj2 (framework_comparison_table
                           (Fixture.targeting "net5.0") Fixture.appPath)) eq_refl).
  - exact (proj1 (proj2 (proj2 (framework_comparison_table
                                  (Fixture.targeting "netcoreapp3.1") Fixture.appPath)))
                 eq_refl).
  - exact (proj1 (proj2 (proj2 (proj2 (framework_comparison_table
                                         (Fixture.single "<Project><PropertyGroup/></Project>"
                                            (Fixture.withGroups [Fixture.emptyGroup]))
                                         Fixture.appPath))) eq_refl)).
Defined.

(** C7 as stated fails: a target framework resolved to the empty string has
    no version run, and the comparison gives absent, not false. *)
Lemma empty_framework_compares_absent :
  ~ (forall host filePath tf,
        completion (getTargetFramework host filePath) = Normal (Some tf) ->
        (JS.matchNetVersion tf = None \/
         exists run, JS.matchNetVersion tf = Some run /\ JS.Number run = JS.NaN) ->
        completion (isTargetFrameworkHigherThanOrEqualToDotNet6 host filePath)
          = Normal (Some false)).
Proof.
  intros Hclaim.
  specialize (Hclaim (Fixture.targeting "") Fixture.appPath "" eq_refl (or_introl eq_refl)).
  vm_compute in Hclaim. discriminate Hclaim.
Qed.

(** C7, amended.  For every resolved target framework that is not the
    empty string, when no version run follows [net] in it, or when the run
    that does converts to NaN, the comparison gives false, not absent; for a
    target framework resolved to the empty string it gives absent. *)
Theorem unmatched_or_unparsable_version_is_false :
  forall host filePath tf,
    completion (getTargetFramework host filePath) = Normal (Some tf) ->
    (tf <> "" ->
     (JS.matchNetVersion tf = None \/
      exists run, JS.matchNetVersion tf = Some run /\ JS.Number run = JS.NaN) ->
     completion (isTargetFrameworkHigherThanOrEqualToDotNet6 host filePath)
       = Normal (Some false)) /\
    (tf = "" ->
     completion (isTargetFrameworkHigherThanOrEqualToDotNet6 host filePath)
       = Normal None).
Proof.
  intros host filePath tf Hresolved.
  rewrite (comparison_of_resolved _ _ _ Hresolved). split.
  - intros Hne Hrun. f_equal.
    destruct Hrun as [Hnone | (run & Hmatch & Hnan)].
    + now apply versionIsAtLeast6_unmatched.
    + now apply (versionIsAtLeast6_NaN tf run).
  - intros ->. reflexivity.
Qed.

Lemma unmatched_or_unparsable_version_is_false_witness :
  completion (isTargetFrameworkHigherThanOrEqualToDotNet6
                (Fixture.targeting "netstandard2.1") Fixture.appPath)
    = Normal (Some false) /\
  completion (isTargetFrameworkHigherThanOrEqualToDotNet6
                (Fixture.targeting "net8.0.100") Fixture.appPath)
    = Normal (Some false) /\
  completion (isTargetFrameworkHigherThanOrEqualToDotNet6
                (Fixture.targeting "") Fixture.appPath)
    = Normal None.
Proof.
  split; [|split].
  - apply (proj1 (unmatched_or_unparsable_version_is_false
                    (Fixture.targeting "netstandard2.1") Fixture.appPath
                    "netstandard2.1" eq_refl)).
    + discriminate.
    + left. reflexivity.
  - apply (proj1 (unmatched_or_unparsable_version_is_false
                    (Fixture.targeting "net8.0.100") Fixture.appPath
                    "net8.0.100" eq_refl)).
    + discriminate.
    + right. exists "8.0.100". split; reflexivity.
  - exact (proj2 (unmatched_or_unparsable_version_is_false
                    (Fixture.targeting "") Fixture.appPath "" eq_refl) eq_refl).
Defined.

(** C10.  When the version run of the resolved target framework holds two
    or more dots, as in [net6.0.1], the comparison gives false whatever its
    leading segments are: the whole run converts to NaN. *)
Theorem multi_segment_version_is_false :
  forall host filePath tf run,
    completion (getTargetFramework host filePath) = Normal (Some tf) ->
    JS.matchNetVersion tf = Some run ->
    2 <= countDots run ->
    JS.Number run = JS.NaN /\
    completion (isTargetFrameworkHigherThanOrEqualToDotNet6 host filePath)
      = Normal (Some false).
Proof.
  intros host filePath tf run Hresolved Hmatch Hdots.
  pose proof (Number_two_dots run Hdots) as Hnan. split; [exact Hnan|].
  rewrite (comparison_of_resolved _ _ _ Hresolved). f_equal.
  exact (versionIsAtLeast6_NaN tf run Hmatch Hnan).
Qed.

Lemma multi_segment_version_is_false_witness :
  JS.matchNetVersion "net6.0.1" = Some "6.0.1" /\
  completion (isTargetFrameworkHigherThanOrEqualToDotNet6
                (Fixture.targeting "net6.0.1") Fixture.appPath)
    = Normal (Some false).
Proof.
  split; [reflexivity|].
  apply (multi_segment_version_is_false
           (Fixture.targeting "net6.0.1") Fixture.appPath "net6.0.1" "6.0.1").
  - reflexivity.
  - reflexivity.
  - simpl. lia.
Defined.

(* ===================================================================== *)
(** ** The implicit-usings flag                                           *)
(* ===================================================================== *)

(** C8.  [useImplicitUsings] always settles on a boolean, and that boolean
    is true exactly when the first property group defining ImplicitUsings
    gives it the value [enable], compared as it is written.  Another value
    (so another casing too), no defining group, no property groups at all
    and a failed load or parse all give false. *)
Theorem implicit_usings_iff_enable :
  forall host filePath,
    let lookup := completion (getPropertyGroups host filePath) in
    let answer := completion (useImplicitUsings host filePath) in
    (exists b, answer = Normal b) /\
    (answer = Normal true <->
     exists groups i, lookup = Normal (Some groups) /\
                      FirstDefinedAt ImplicitUsings groups i "enable") /\
    (forall groups i v, lookup = Normal (Some groups) ->
                        FirstDefinedAt ImplicitUsings groups i v ->
                        v <> "enable" -> answer = Normal false) /\
    (forall groups, lookup = Normal (Some groups) ->
                    NoneDefines ImplicitUsings groups -> answer = Normal false) /\
    (lookup = Normal None -> answer = Normal false) /\
    (forall e, lookup = Throw e -> answer = Normal false).
Proof.
  intros host filePath lookup answer. subst lookup answer.
  rewrite useImplicitUsings_run.
  destruct (getPropertyGroups host filePath) as [t [pg|e]]; unfold completion; simpl.
  - split; [eexists; reflexivity|]. split; [|split; [|split; [|split]]].
    + split.
      * intros [= Htrue]. destruct pg as [groups|]; [|discriminate].
        destruct (scalarOf ImplicitUsings (Some groups)) as [v|] eqn:Hv; [|discriminate].
        apply String.eqb_eq in Htrue. subst v.
        destruct (scalarOf_inv _ _ _ Hv) as [i Hi]. now exists groups, i.
      * intros (groups & i & [= ->] & Hi). now rewrite (scalarOf_first _ _ _ _ Hi).
    + intros groups i v [= ->] Hi Hne. rewrite (scalarOf_first _ _ _ _ Hi).
      apply String.eqb_neq in Hne. now rewrite Hne.
    + intros groups [= ->] Hnone. now rewrite (scalarOf_none _ _ Hnone).
    + now intros [= ->].
    + discriminate.
  - split; [eexists; reflexivity|]. split; [|split; [|split; [|split]]];
      try discriminate; try reflexivity.
    split; [discriminate|]. intros (groups & i & Habs & _). discriminate Habs.
Qed.

Lemma implicit_usings_iff_enable_witness :
  completion (useImplicitUsings (Fixture.usingImplicit "enable") Fixture.appPath)
    = Normal true /\
  completion (useImplicitUsings (Fixture.usingImplicit "Enable") Fixture.appPath)
    = Normal false /\
  completion (useImplicitUsings (Fixture.malformedHost "<lorem>") Fixture.appPath)
    = Normal false.
Proof.
  split; [|split].
  - apply (proj1 (proj2 (implicit_usings_iff_enable
                           (Fixture.usingImplicit "enable") Fixture.appPath))).
    exists [Fixture.group None None (Some ["enable"])], 0. split; [reflexivity|].
    first_defined_at (Fixture.group None None (Some ["enable"])) (@nil string).
  - apply (proj1 (proj2 (proj2 (implicit_usings_iff_enable
                                  (Fixture.usingImplicit "Enable") Fixture.appPath)))
             [Fixture.group None None (Some ["Enable"])] 0 "Enable").
    + reflexivity.
    + first_defined_at (Fixture.group None None (Some ["Enable"])) (@nil string).
    + discriminate.
  - apply (proj2 (proj2 (proj2 (proj2 (proj2 (implicit_usings_iff_enable
                                  (Fixture.malformedHost "<lorem>") Fixture.appPath)))))
             "Error: not well-formed").
    reflexivity.
Defined.

(* ===================================================================== *)
(** ** Using items                                                        *)
(* ===================================================================== *)

Section Usings.

Variable host : Host.
Variable filePath : string.

(** Only the root document is ever loaded. *)
Lemma getUsings_root_only content xml :
  RootParsesTo host filePath content xml ->
  events (getUsingsInclude host filePath) = rootOnly filePath content /\
  events (getUsingsRemove host filePath) = rootOnly filePath content.
Proof.
  intros Hroot. unfold getUsingsInclude, getUsingsRemove, getUsings.
  rewrite (getXmlContent_root host filePath content xml Hroot).
  unfold bind, events. destruct (optItemGroup xml); split; reflexivity.
Qed.

(** Without an ItemGroup both lists are empty. *)
Lemma getUsings_without_item_group content xml :
  RootParsesTo host filePath content xml ->
  optItemGroup xml = None ->
  completion (getUsingsInclude host filePath) = Normal [] /\
  completion (getUsingsRemove host filePath) = Normal [].
Proof.
  intros Hroot Hnone. unfold getUsingsInclude, getUsingsRemove, getUsings.
  rewrite (getXmlContent_root host filePath content xml Hroot).
  unfold bind, completion. rewrite Hnone. split; reflexivity.
Qed.

End Usings.

(** C4, where the code departs from it.  [getUsings] awaits the parsed
    document outside any [try]: when the parser rejects the root content,
    [getUsingsInclude] and [getUsingsRemove] reject with the parser's error
    instead of returning an empty list. *)
Theorem usings_reject_when_parsing_fails :
  forall host filePath content e,
    FileHandler_read host filePath = Normal content ->
    parseStringPromise host content = Throw e ->
    completion (getUsingsInclude host filePath) = Throw e /\
    completion (getUsingsRemove host filePath) = Throw e.
Proof.
  intros host filePath content e Hread Hparse.
  unfold getUsingsInclude, getUsingsRemove, getUsings, getXmlContent, getContent,
    bind, emit, completion.
  rewrite Hread, Hparse. split; reflexivity.
Qed.

Lemma usings_reject_when_parsing_fails_witness :
  getUsingsInclude (Fixture.malformedHost "<lorem>") Fixture.appPath
    = (rootOnly Fixture.appPath "<lorem>", Throw "Error: not well-formed") /\
  completion (getUsingsInclude (Fixture.malformedHost "<lorem>") Fixture.appPath)
    = Throw "Error: not well-formed" /\
  completion (getUsingsRemove (Fixture.malformedHost "<lorem>") Fixture.appPath)
    = Throw "Error: not well-formed".
Proof.
  split; [reflexivity|].
  exact (usings_reject_when_parsing_fails
           (Fixture.malformedHost "<lorem>") Fixture.appPath "<lorem>"
           "Error: not well-formed" eq_refl eq_refl).
Defined.

(* ===================================================================== *)
(** ** The path of the import target                                      *)
(* ===================================================================== *)

Lemma substring_whole s : substring 0 (String.length s) s = s.
Proof. induction s as [|c rest IH]; simpl; [reflexivity | now rewrite IH]. Qed.

(** [replace] rewrites the first occurrence of a one-character pattern and
    copies everything behind it. *)
Lemma replace_first_occurrence c replacement before behind :
  occurs c before = false ->
  JS.replace (String c "") replacement (before ++ String c behind)
    = before ++ replacement ++ behind.
Proof.
  induction before as [|a before IH]; intros Hnone; simpl in *.
  - destruct (ascii_dec c c) as [_|Hne]; [|contradiction].
    destruct behind; simpl; [reflexivity|].
    now rewrite substring_whole.
  - apply orb_false_elim in Hnone as [Ha Hrest].
    destruct (ascii_dec c a) as [->|_]; [now rewrite Ascii.eqb_refl in Ha|].
    now rewrite (IH Hrest).
Qed.

Lemma replace_no_occurrence c replacement s :
  occurs c s = false -> JS.replace (String c "") replacement s = s.
Proof.
  induction s as [|a rest IH]; intros Hnone; simpl in *; [reflexivity|].
  apply orb_false_elim in Hnone as [Ha Hrest].
  destruct (ascii_dec c a) as [->|_]; [now rewrite Ascii.eqb_refl in Ha|].
  now rewrite (IH Hrest).
Qed.

(** On a POSIX platform only the first backslash of a reference becomes a
    slash: what stands behind it is kept as it is, backslashes included. *)
Lemma cleanPath_posix host before behind :
  platform host = Posix ->
  occurs "\" before = false -> occurs "/" before = false ->
  cleanPath host {| Import_Project := before ++ String "\" behind |}
    = before ++ String "/" behind.
Proof.
  intros Hposix Hback Hslash. unfold cleanPath, path_sep. rewrite Hposix. simpl.
  rewrite (replace_first_occurrence "\" "/" before behind Hback).
  exact (replace_first_occurrence "/" "/" before behind Hslash).
Qed.

(** The target is read at the cleaned reference resolved against the
    directory of the reader's own file. *)
Lemma import_target_path host filePath content xml imp others :
  RootParsesTo host filePath content xml ->
  optPropertyGroup xml = None ->
  optImport xml = Some (imp :: others) ->
  In (ReadFile (path_resolve host (path_dirname host filePath) (cleanPath host imp)))
     (events (getPropertyGroups host filePath)).
Proof.
  intros Hroot Hgroups Himport. unfold getPropertyGroups.
  rewrite (getXmlContent_root host filePath content xml Hroot). unfold bind at 1.
  rewrite Hgroups, Himport. unfold bind, getXmlContent, getContent, emit, events, projectPath.
  destruct (FileHandler_read host _) as [c|e]; simpl.
  - destruct (parseStringPromise host c); simpl; auto.
  - auto.
Qed.

(** C9, where the code departs from it.  Each of the two [replace] calls
    changes the first occurrence only: of two backslashes in an Import
    reference the second one survives on a POSIX platform, where it is no
    separator, and the target is looked for under that name; of two slashes
    the second one survives on Windows. *)
Theorem cleanPath_leaves_later_separators :
  cleanPath Fixture.deepImportHost Fixture.twoBackslashes
    = "../..\Directory.Build.props" /\
  events (getPropertyGroups Fixture.deepImportHost Fixture.appPath)
    = [ReadFile Fixture.appPath; ParseXml Fixture.deepImportXml;
       ReadFile "/suite/..\Directory.Build.props"] /\
  cleanPath (Fixture.tableHost Win32 [] []) Fixture.twoSlashes
    = "..\../Directory.Build.props".
Proof. repeat split. Qed.


(* ===================================================================== *)
(** ** Further properties of the reader: what a lookup touches            *)
(* ===================================================================== *)

Section Footprint.

Variable host : Host.
Variable filePath : string.

(** A lookup starts by reading the reader's own file, reads at most one
    more file and logs nothing itself. *)
Lemma getPropertyGroups_events :
  exists rest,
    events (getPropertyGroups host filePath) = ReadFile filePath :: rest /\
    length (filter isRead rest) <= 1 /\
    filter isLog rest = [].
Proof.
  unfold getPropertyGroups, getXmlContent, getContent, bind, emit, ret, events.
  destruct (FileHandler_read host filePath) as [content|e]; simpl;
    [|eexists; repeat split; simpl; lia].
  destruct (parseStringPromise host content) as [xml|e]; simpl;
    [|eexists; repeat split; simpl; lia].
  destruct (optPropertyGroup xml) as [groups|]; simpl;
    [eexists; repeat split; simpl; lia|].
  destruct (optImport xml) as [[|imp others]|]; simpl;
    try (eexists; repeat split; simpl; lia).
  destruct (FileHandler_read host (projectPath host filePath imp)) as [content'|e];
    simpl; [|eexists; repeat split; simpl; lia].
  destruct (parseStringPromise host content') as [xml'|e]; simpl;
    eexists; repeat split; simpl; lia.
Qed.

Lemma getPropertyGroups_never_logs message :
  ~ In (LogError message) (events (getPropertyGroups host filePath)).
Proof.
  destruct getPropertyGroups_events as (rest & -> & _ & Hlog).
  intros [Habs | Hin]; [discriminate|].
  assert (Hfiltered : In (LogError message) (filter isLog rest))
    by (apply filter_In; now split).
  now rewrite Hlog in Hfiltered.
Qed.

Lemma reads_of_lookup :
  length (filter isRead (events (getPropertyGroups host filePath))) <= 2.
Proof.
  destruct getPropertyGroups_events as (rest & -> & Hreads & _). simpl. lia.
Qed.

Lemma reads_with_log (t : list Event) message :
  filter isRead (t ++ [LogError message]) = filter isRead t.
Proof. rewrite filter_app. simpl. apply app_nil_r. Qed.

End Footprint.

(** X1.  Whatever the host holds, a scalar query reads the reader's own file
    first and at most two files in all: the import is never followed beyond
    one hop, and nothing is read twice within a call. *)
Theorem scalar_queries_read_at_most_two_files :
  forall host filePath,
    let reads := fun (t : list Event) => length (filter isRead t) in
    hd_error (events (getPropertyGroups host filePath)) = Some (ReadFile filePath) /\
    reads (events (getPropertyGroups host filePath)) <= 2 /\
    reads (events (getRootNamespace host filePath)) <= 2 /\
    reads (events (getTargetFramework host filePath)) <= 2 /\
    reads (events (useImplicitUsings host filePath)) <= 2 /\
    reads (events (isTargetFrameworkHigherThanOrEqualToDotNet6 host filePath)) <= 2.
Proof.
  intros host filePath reads. subst reads. cbv beta.
  pose proof (reads_of_lookup host filePath) as Hreads.
  split.
  { destruct (getPropertyGroups_events host filePath) as (rest & -> & _). reflexivity. }
  split; [exact Hreads|].
  rewrite isTargetFramework_run, getRootNamespace_run, getTargetFramework_run,
    useImplicitUsings_run.
  destruct (getPropertyGroups host filePath) as [t [pg|e]]; unfold events in *;
    simpl in *; rewrite ?reads_with_log.
  - destruct (scalarOf TargetFramework pg); simpl; repeat split; exact Hreads.
  - repeat split; simpl; rewrite ?reads_with_log; exact Hreads.
Qed.

(** X2.  A scalar query logs an error exactly when its lookup was rejected
    (an unreadable or malformed file), and then logs that error once; a
    property that is merely missing is never logged. *)
Theorem scalar_queries_log_exactly_rejections :
  forall host filePath message,
    let rejected :=
      exists e, completion (getPropertyGroups host filePath) = Throw e /\
                message = "Error parsing project xml: " ++ e in
    (In (LogError message) (events (getRootNamespace host filePath)) <-> rejected) /\
    (In (LogError message) (events (getTargetFramework host filePath)) <-> rejected) /\
    (In (LogError message) (events (useImplicitUsings host filePath)) <-> rejected) /\
    length (filter isLog (events (getRootNamespace host filePath))) <= 1 /\
    length (filter isLog (events (getTargetFramework host filePath))) <= 1 /\
    length (filter isLog (events (useImplicitUsings host filePath))) <= 1.
Proof.
  intros host filePath message rejected. subst rejected.
  pose proof (getPropertyGroups_never_logs host filePath message) as Hnever.
  destruct (getPropertyGroups_events host filePath) as (rest & Hev & _ & Hquiet).
  rewrite getRootNamespace_run, getTargetFramework_run, useImplicitUsings_run.
  destruct (getPropertyGroups host filePath) as [t [pg|e]];
    unfold events, completion in *; simpl in *.
  - assert (Hno : In (LogError message) t <->
                  exists e, Normal pg = Throw e /\
                            message = "Error parsing project xml: " ++ e).
    { split; [intros H; contradiction | intros (e & Habs & _); discriminate]. }
    repeat split; try apply Hno; subst t; simpl; rewrite Hquiet; simpl; lia.
  - assert (Hyes : In (LogError message) (t ++ [LogError ("Error parsing project xml: " ++ e)])
                   <-> exists e0, @Throw (option (list PropertyGroup)) e = Throw e0 /\
                                  message = "Error parsing project xml: " ++ e0).
    { split.
      - intros H. apply in_app_or in H as [H | [H | []]]; [contradiction|].
        injection H as <-. now exists e.
      - intros (e0 & [= <-] & ->). apply in_or_app. right. now left. }
    repeat split; try apply Hyes;
      subst t; rewrite filter_app; simpl; rewrite Hquiet; simpl; lia.
Qed.

(** X3.  A root document without property group and without Import (the
    Import array missing or empty) settles every scalar query on its absent
    value after the root alone has been read, and nothing is logged. *)
Theorem no_groups_no_import_is_absent :
  forall host filePath content xml,
    RootParsesTo host filePath content xml ->
    optPropertyGroup xml = None ->
    optImport xml = None \/ optImport xml = Some [] ->
    getRootNamespace host filePath = (rootOnly filePath content, Normal None) /\
    getTargetFramework host filePath = (rootOnly filePath content, Normal None) /\
    useImplicitUsings host filePath = (rootOnly filePath content, Normal false) /\
    isTargetFrameworkHigherThanOrEqualToDotNet6 host filePath
      = (rootOnly filePath content, Normal None).
Proof.
  intros host filePath content xml Hroot Hgroups Himport.
  assert (Hlookup : getPropertyGroups host filePath
                    = (rootOnly filePath content, Normal None)).
  { unfold getPropertyGroups. rewrite (getXmlContent_root _ _ _ _ Hroot).
    unfold bind at 1. rewrite Hgroups. now destruct Himport as [-> | ->]. }
  rewrite isTargetFramework_run, getRootNamespace_run, getTargetFramework_run,
    useImplicitUsings_run, Hlookup.
  repeat split.
Qed.

Lemma no_groups_no_import_is_absent_witness :
  getRootNamespace Fixture.projectOnlyHost Fixture.appPath
    = (rootOnly Fixture.appPath Fixture.projectOnlyXml, Normal None) /\
  useImplicitUsings Fixture.projectOnlyHost Fixture.appPath
    = (rootOnly Fixture.appPath Fixture.projectOnlyXml, Normal false).
Proof.
  destruct (no_groups_no_import_is_absent
              Fixture.projectOnlyHost Fixture.appPath Fixture.projectOnlyXml
              (Some Fixture.projectOnlyDoc) (conj eq_refl eq_refl) eq_refl
              (or_introl eq_refl)) as (Hnamespace & _ & Husings & _).
  split; [exact Hnamespace | exact Husings].
Defined.

(** X4.  When the Import target cannot be read, or is read and rejected by
    the parser, the scalar queries do not fail: they log that error once,
    after the read of the target, and give their absent value. *)
Theorem failed_import_is_absent :
  forall host filePath content xml imp others e,
    RootParsesTo host filePath content xml ->
    optPropertyGroup xml = None ->
    optImport xml = Some (imp :: others) ->
    let target := projectPath host filePath imp in
    let absent := fun (trace : list Event) =>
      getRootNamespace host filePath = (trace, Normal None) /\
      getTargetFramework host filePath = (trace, Normal None) /\
      useImplicitUsings host filePath = (trace, Normal false) in
    let logged := LogError ("Error parsing project xml: " ++ e) in
    (FileHandler_read host target = Throw e ->
     absent [ReadFile filePath; ParseXml content; ReadFile target; logged]) /\
    (forall content',
        FileHandler_read host target = Normal content' ->
        parseStringPromise host content' = Throw e ->
        absent [ReadFile filePath; ParseXml content; ReadFile target;
                ParseXml content'; logged]).
Proof.
  intros host filePath content xml imp others e Hroot Hgroups Himport target absent logged.
  subst absent logged. cbv beta.
  assert (Hstart : getPropertyGroups host filePath
                   = bind (rootOnly filePath content, Normal tt)
                          (fun _ => importXmlContent <- getXmlContent host filePath (Some target) ;;
                                    ret (optPropertyGroup importXmlContent))).
  { unfold getPropertyGroups. rewrite (getXmlContent_root _ _ _ _ Hroot).
    unfold bind at 1. rewrite Hgroups, Himport. reflexivity. }
  rewrite getRootNamespace_run, getTargetFramework_run, useImplicitUsings_run, Hstart.
  unfold getXmlContent, getContent, bind, emit. split.
  - intros Hread. rewrite Hread. repeat split.
  - intros content' Hread Hparse. rewrite Hread, Hparse. repeat split.
Qed.

Lemma failed_import_is_absent_witness :
  getRootNamespace Fixture.danglingImportHost Fixture.appPath
    = ([ReadFile Fixture.appPath; ParseXml Fixture.importOnlyXml;
        ReadFile Fixture.targetsPath;
        LogError ("Error parsing project xml: "
                    ++ "ENOENT: no such file or directory, open '"
                    ++ Fixture.targetsPath ++ "'")],
       Normal None).
Proof.
  destruct (failed_import_is_absent
              Fixture.danglingImportHost Fixture.appPath Fixture.importOnlyXml
              (Some (Fixture.withImport Fixture.targetsReference))
              {| Import_Project := Fixture.targetsReference |} []
              ("ENOENT: no such file or directory, open '" ++ Fixture.targetsPath ++ "'")
              (conj eq_refl eq_refl) eq_refl eq_refl)
    as [Hunreadable _].
  exact (proj1 (Hunreadable eq_refl)).
Defined.

(* ===================================================================== *)
(** ** Further properties of the reader: Using items                      *)
(* ===================================================================== *)

Section UsingLists.

Variable attribute : UsingAttributes -> option string.

(** Filtering on the attribute and casting keeps exactly the defined
    values, in order. *)
Lemma filter_then_cast (usings : list Using) :
  map (fun u => asString (match Using_attributes u with
                          | Some a => attribute a
                          | None => None
                          end))
      (filter (fun u => isDefined (Using_attributes u)
                        && isDefined (match Using_attributes u with
                                      | Some a => attribute a
                                      | None => None
                                      end)) usings)
  = flat_map (fun u => match Using_attributes u with
                       | Some a => match attribute a with
                                   | Some v => [v]
                                   | None => []
                                   end
                       | None => []
                       end) usings.
Proof.
  induction usings as [|u usings IH]; simpl; [reflexivity|].
  destruct (Using_attributes u) as [a|] eqn:Hu; simpl; [|exact IH].
  destruct (attribute a) as [v|] eqn:Ha; simpl; [|exact IH].
  now rewrite Hu, Ha, IH.
Qed.

(** Dropping the groups without Using before collecting changes nothing. *)
Lemma collect_defined_groups (groups : list ItemGroup) :
  flat_map (fun g => match ItemGroup_Using g with None => [] | Some us => us end)
           (filter (fun g => isDefined (ItemGroup_Using g)) groups)
  = flat_map (fun g => match ItemGroup_Using g with Some us => us | None => [] end) groups.
Proof.
  induction groups as [|g groups IH]; simpl; [reflexivity|].
  destruct (ItemGroup_Using g) as [us|] eqn:Hg; simpl; [|exact IH].
  now rewrite Hg, IH.
Qed.

Lemma attributeValues_flat (groups : list ItemGroup) :
  attributeValues attribute groups
  = flat_map (fun u => match Using_attributes u with
                       | Some a => match attribute a with
                                   | Some v => [v]
                                   | None => []
                                   end
                       | None => []
                       end)
             (flat_map (fun g => match ItemGroup_Using g with Some us => us | None => [] end)
                       groups).
Proof.
  unfold attributeValues. induction groups as [|g groups IH]; simpl; [reflexivity|].
  now rewrite flat_map_app, IH.
Qed.

End UsingLists.

(** X5.  For a root document that parses and has item groups,
    [getUsingsInclude] returns the Include value of every Using element that
    carries one, in document order across the groups, an empty value
    included; [getUsingsRemove] does the same for Remove.  An element with
    neither attribute gives nothing, a group without Using gives nothing. *)
Theorem usings_in_document_order :
  forall host filePath content xml groups,
    RootParsesTo host filePath content xml ->
    optItemGroup xml = Some groups ->
    completion (getUsingsInclude host filePath) = Normal (attributeValues Include groups) /\
    completion (getUsingsRemove host filePath) = Normal (attributeValues Remove groups).
Proof.
  intros host filePath content xml groups Hroot Hgroups.
  unfold getUsingsInclude, getUsingsRemove, getUsings.
  rewrite (getXmlContent_root _ _ _ _ Hroot). unfold bind, completion.
  rewrite Hgroups. cbn [ret snd]. unfold optInclude, optRemove.
  rewrite collect_defined_groups, !attributeValues_flat.
  split; f_equal.
  - exact (filter_then_cast Include _).
  - exact (filter_then_cast Remove _).
Qed.

Lemma usings_in_document_order_witness :
  completion (getUsingsInclude Fixture.usingsHost Fixture.appPath)
    = Normal [""; "Xamarin.Forms"] /\
  completion (getUsingsRemove Fixture.usingsHost Fixture.appPath)
    = Normal ["System.Linq"; "System.IO"].
Proof.
  exact (usings_in_document_order
           Fixture.usingsHost Fixture.appPath Fixture.usingsXml _ Fixture.usingsGroups
           (conj eq_refl eq_refl) eq_refl).
Defined.

(** X6.  [getUsingsInclude] and [getUsingsRemove] reject exactly when the
    read of the root file or its parsing rejects, and then with that very
    error; in every other case they return a list. *)
Theorem usings_reject_exactly_on_load_failure :
  forall host filePath e,
    let loadFails :=
      FileHandler_read host filePath = Throw e \/
      exists content, FileHandler_read host filePath = Normal content /\
                      parseStringPromise host content = Throw e in
    (completion (getUsingsInclude host filePath) = Throw e <-> loadFails) /\
    (completion (getUsingsRemove host filePath) = Throw e <-> loadFails).
Proof.
  intros host filePath e loadFails. subst loadFails.
  unfold getUsingsInclude, getUsingsRemove, getUsings, getXmlContent, getContent,
    bind, emit, completion.
  destruct (FileHandler_read host filePath) as [content|e0]; simpl.
  - destruct (parseStringPromise host content) as [xml|e1] eqn:Hparse; simpl.
    + destruct (optItemGroup xml); simpl; split; split;
        try discriminate;
        intros [Habs | (content' & [= <-] & Habs)]; try discriminate;
        rewrite Hparse in Habs; discriminate.
    + split; split;
        try (intros [= ->]; right; exists content; now split);
        intros [Habs | (content' & [= <-] & Habs)]; try discriminate;
        rewrite Hparse in Habs; now injection Habs as ->.
  - split; split;
      try (intros [= ->]; now left);
      intros [[= ->] | (content' & Habs & _)]; try discriminate; reflexivity.
Qed.

(* ===================================================================== *)
(** ** Further properties of the framework comparison                     *)
(* ===================================================================== *)

Lemma versionIsAtLeast6_absent_iff tf : versionIsAtLeast6 tf = None <-> tf = "".
Proof.
  unfold versionIsAtLeast6. destruct tf as [|c rest]; [now split|].
  cbv [JS.truthy negb JS.Number_isNaN].
  destruct (JS.matchNetVersion (String c rest)); split; discriminate.
Qed.

(** X7.  The comparison is absent exactly when [getTargetFramework] gives
    nothing or the empty string; in every other case it is a boolean.  It
    reads and logs what [getTargetFramework] does and nothing more. *)
Theorem comparison_absent_iff :
  forall host filePath,
    let resolved := completion (getTargetFramework host filePath) in
    let answer := completion (isTargetFrameworkHigherThanOrEqualToDotNet6 host filePath) in
    (answer = Normal None <-> resolved = Normal None \/ resolved = Normal (Some "")) /\
    (forall tf, resolved = Normal (Some tf) -> tf <> "" ->
                exists b, answer = Normal (Some b)) /\
    events (isTargetFrameworkHigherThanOrEqualToDotNet6 host filePath)
      = events (getTargetFramework host filePath).
Proof.
  intros host filePath resolved answer. subst resolved answer.
  rewrite isTargetFramework_run.
  destruct (getTargetFramework host filePath) as [t [[tf|]|e]];
    unfold completion, events; simpl.
  - split; [|split; [|reflexivity]].
    + split.
      * intros [= H]. apply versionIsAtLeast6_absent_iff in H. subst tf. now right.
      * intros [[=] | [= ->]]. reflexivity.
    + intros tf' [= <-] Hne. destruct (versionIsAtLeast6 tf) as [b|] eqn:Hb.
      * now exists b.
      * apply versionIsAtLeast6_absent_iff in Hb. contradiction.
  - split; [|split; [|reflexivity]].
    + split; [now left | reflexivity].
    + discriminate.
  - split; [|split; [|reflexivity]].
    + split; [discriminate | intros [[=] | [=]]].
    + discriminate.
Qed.

(** Upper-casing leaves digits and dots alone and keeps what the pattern
    sees of the letters of [net]. *)
Lemma asciiUpper_isDigit c : JS.isDigit (asciiUpper c) = JS.isDigit c.
Proof. destruct c as [[] [] [] [] [] [] [] []]; reflexivity. Qed.

Lemma asciiUpper_dot c : Ascii.eqb (asciiUpper c) "." = Ascii.eqb c ".".
Proof. destruct c as [[] [] [] [] [] [] [] []]; reflexivity. Qed.

Lemma asciiUpper_digit c : JS.isDigit c = true -> asciiUpper c = c.
Proof. destruct c as [[] [] [] [] [] [] [] []]; intros H; try discriminate H; reflexivity. Qed.

Lemma asciiUpper_n c : JS.eqIgnoreCase "n" (asciiUpper c) = JS.eqIgnoreCase "n" c.
Proof. destruct c as [[] [] [] [] [] [] [] []]; reflexivity. Qed.

Lemma asciiUpper_e c : JS.eqIgnoreCase "e" (asciiUpper c) = JS.eqIgnoreCase "e" c.
Proof. destruct c as [[] [] [] [] [] [] [] []]; reflexivity. Qed.

Lemma asciiUpper_t c : JS.eqIgnoreCase "t" (asciiUpper c) = JS.eqIgnoreCase "t" c.
Proof. destruct c as [[] [] [] [] [] [] [] []]; reflexivity. Qed.

Lemma versionTail_upper s : JS.versionTail (upper s) = JS.versionTail s.
Proof.
  induction s as [|c rest IH]; [reflexivity|].
  change (upper (String c rest)) with (String (asciiUpper c) (upper rest)).
  cbn [JS.versionTail]. rewrite asciiUpper_isDigit, asciiUpper_dot.
  destruct (JS.isDigit c) eqn:Hc.
  - now rewrite (asciiUpper_digit c Hc), IH.
  - destruct (Ascii.eqb c ".") eqn:Hdot; [|reflexivity].
    apply Ascii.eqb_eq in Hdot. subst c.
    destruct rest as [|d rest']; [reflexivity|].
    change (upper (String d rest')) with (String (asciiUpper d) (upper rest')) in *.
    cbv iota beta. rewrite asciiUpper_isDigit. destruct (JS.isDigit d); [|reflexivity].
    now rewrite IH.
Qed.

Lemma versionAt_upper s : JS.versionAt (upper s) = JS.versionAt s.
Proof.
  destruct s as [|c rest]; [reflexivity|]. simpl.
  rewrite asciiUpper_isDigit. destruct (JS.isDigit c) eqn:Hc; [|reflexivity].
  now rewrite (asciiUpper_digit c Hc), versionTail_upper.
Qed.

Lemma matchNetVersion_upper s : JS.matchNetVersion (upper s) = JS.matchNetVersion s.
Proof.
  induction s as [|a tl IH]; [reflexivity|].
  destruct tl as [|b [|c rest]]; try reflexivity.
  change (upper (String a (String b (String c rest))))
    with (String (asciiUpper a) (String (asciiUpper b) (String (asciiUpper c) (upper rest)))).
  change (upper (String b (String c rest)))
    with (String (asciiUpper b) (String (asciiUpper c) (upper rest))) in IH.
  cbn [JS.matchNetVersion] in *.
  rewrite asciiUpper_n, asciiUpper_e, asciiUpper_t, versionAt_upper.
  destruct (JS.eqIgnoreCase "n" a && JS.eqIgnoreCase "e" b && JS.eqIgnoreCase "t" c);
    [|exact IH].
  destruct (JS.versionAt rest); [reflexivity | exact IH].
Qed.

Lemma versionIsAtLeast6_upper s : versionIsAtLeast6 (upper s) = versionIsAtLeast6 s.
Proof.
  unfold versionIsAtLeast6. rewrite matchNetVersion_upper. now destruct s.
Qed.

(** X8.  The comparison does not look at letter case: two readers whose
    target frameworks differ only in the case of ASCII letters get the same
    answer. *)
Theorem comparison_ignores_case :
  forall host filePath host' filePath' tf tf',
    completion (getTargetFramework host filePath) = Normal (Some tf) ->
    completion (getTargetFramework host' filePath') = Normal (Some tf') ->
    upper tf = upper tf' ->
    completion (isTargetFrameworkHigherThanOrEqualToDotNet6 host filePath)
      = completion (isTargetFrameworkHigherThanOrEqualToDotNet6 host' filePath').
Proof.
  intros host filePath host' filePath' tf tf' Htf Htf' Hsame.
  rewrite (comparison_of_resolved _ _ _ Htf), (comparison_of_resolved _ _ _ Htf').
  now rewrite <- (versionIsAtLeast6_upper tf), Hsame, versionIsAtLeast6_upper.
Qed.

Lemma comparison_ignores_case_witness :
  completion (isTargetFrameworkHigherThanOrEqualToDotNet6
                (Fixture.targeting "Net7.0") Fixture.appPath)
    = completion (isTargetFrameworkHigherThanOrEqualToDotNet6
                    (Fixture.targeting "NET7.0") Fixture.appPath).
Proof.
  exact (comparison_ignores_case
           (Fixture.targeting "Net7.0") Fixture.appPath
           (Fixture.targeting "NET7.0") Fixture.appPath "Net7.0" "NET7.0"
           eq_refl eq_refl eq_refl).
Defined.

(** *** Monikers written [net<digits>] and [net<digits>.<digits>] *)

Lemma versionTail_stops suffix : endsRun suffix = true -> JS.versionTail suffix = "".
Proof.
  destruct suffix as [|c rest]; [reflexivity|]. simpl.
  intros H. apply andb_prop in H as [Hdigit Hdot].
  apply negb_true_iff in Hdigit, Hdot. now rewrite Hdigit, Hdot.
Qed.

Lemma versionTail_digits ds : forall suffix,
  allDigits ds = true -> endsRun suffix = true ->
  JS.versionTail (ds ++ suffix) = ds.
Proof.
  induction ds as [|c ds IH]; intros suffix Hds Hend; simpl in *.
  - now apply versionTail_stops.
  - apply andb_prop in Hds as [Hc Hds]. now rewrite Hc, IH.
Qed.

Lemma versionTail_two_segments ds : forall ms suffix,
  allDigits ds = true -> allDigits ms = true -> ms <> "" -> endsRun suffix = true ->
  JS.versionTail (ds ++ String "." (ms ++ suffix)) = ds ++ String "." ms.
Proof.
  induction ds as [|c ds IH]; intros ms suffix Hds Hms Hne Hend.
  - destruct ms as [|m ms]; [contradiction|].
    change (JS.versionTail (String "." (String m (ms ++ suffix)))
            = String "." (String m ms)).
    pose proof Hms as Hm. simpl in Hm. apply andb_prop in Hm as [Hm _].
    cbn [JS.versionTail]. change (JS.isDigit ".") with false.
    change (Ascii.eqb "." ".") with true. cbv iota. rewrite Hm.
    simpl in Hms. apply andb_prop in Hms as [_ Hms].
    now rewrite (versionTail_digits ms suffix Hms Hend).
  - simpl in *. apply andb_prop in Hds as [Hc Hds]. now rewrite Hc, IH.
Qed.

Lemma matchNetVersion_after_net run rest :
  JS.versionAt rest = Some run -> JS.matchNetVersion ("net" ++ rest) = Some run.
Proof. intros H. simpl. now rewrite H. Qed.

Lemma digitValue_range c : JS.isDigit c = true -> (0 <= JS.digitValue c <= 9)%Z.
Proof.
  unfold JS.isDigit, JS.digitValue. intros H. apply andb_prop in H as [Hlo Hhi].
  apply Nat.leb_le in Hlo, Hhi. lia.
Qed.

Lemma digitsValueFrom_shift ds : forall acc,
  digitsValueFrom acc ds
  = (acc * 10 ^ Z.of_nat (String.length ds) + digitsValue ds)%Z.
Proof.
  unfold digitsValue. induction ds as [|c ds IH]; intros acc.
  - simpl. lia.
  - cbn [digitsValueFrom String.length]. rewrite (IH (10 * acc + JS.digitValue c)%Z).
    rewrite (IH (10 * 0 + JS.digitValue c)%Z). rewrite Nat2Z.inj_succ, Z.pow_succ_r by lia.
    ring.
Qed.

Lemma digitsValue_range ds :
  allDigits ds = true ->
  (0 <= digitsValue ds < 10 ^ Z.of_nat (String.length ds))%Z.
Proof.
  induction ds as [|c ds IH]; intros Hds.
  - unfold digitsValue. simpl. lia.
  - simpl in Hds. apply andb_prop in Hds as [Hc Hds]. specialize (IH Hds).
    pose proof (digitValue_range c Hc) as Hrange.
    unfold digitsValue in *. cbn [digitsValueFrom String.length].
    rewrite digitsValueFrom_shift. unfold digitsValue.
    rewrite Nat2Z.inj_succ, Z.pow_succ_r by lia.
    assert (0 < 10 ^ Z.of_nat (String.length ds))%Z by (apply Z.pow_pos_nonneg; lia).
    nia.
Qed.

(** Reading the digits of a numeral advances the conversion by its value. *)
Lemma numberFrom_digits ds : forall rest seenDot afterDigit m k,
  allDigits ds = true ->
  JS.numberFrom (ds ++ rest) seenDot afterDigit m k
  = JS.numberFrom rest seenDot (afterDigit || JS.truthy ds) (digitsValueFrom m ds)
                  (if seenDot then String.length ds + k else k).
Proof.
  induction ds as [|c ds IH]; intros rest seenDot afterDigit m k Hds.
  - simpl. rewrite orb_false_r. now destruct seenDot.
  - simpl in Hds. apply andb_prop in Hds as [Hc Hds].
    cbn [append JS.numberFrom digitsValueFrom JS.truthy String.length]. rewrite Hc.
    rewrite (IH rest seenDot true _ _ Hds). rewrite orb_true_r. cbn [orb].
    destruct seenDot; [now rewrite Nat.add_succ_r | reflexivity].
Qed.

Lemma append_empty_r s : s ++ "" = s.
Proof. induction s as [|c s IH]; simpl; [reflexivity | now rewrite IH]. Qed.

Lemma Number_integer ds :
  allDigits ds = true -> ds <> "" -> JS.Number ds = JS.Decimal (digitsValue ds) 0.
Proof.
  intros Hds Hne. unfold JS.Number.
  rewrite <- (append_empty_r ds) at 1.
  rewrite (numberFrom_digits ds "" false false 0%Z 0 Hds).
  destruct ds; [contradiction|reflexivity].
Qed.

Lemma Number_two_segments ds ms :
  allDigits ds = true -> ds <> "" -> allDigits ms = true -> ms <> "" ->
  JS.Number (ds ++ String "." ms)
  = JS.Decimal (digitsValue ds * 10 ^ Z.of_nat (String.length ms) + digitsValue ms)
               (String.length ms).
Proof.
  intros Hds Hne Hms Hnm. unfold JS.Number.
  rewrite (numberFrom_digits ds (String "." ms) false false 0%Z 0 Hds).
  destruct ds as [|d ds]; [contradiction|]. cbn [JS.truthy orb].
  cbn [JS.numberFrom]. change (JS.isDigit ".") with false.
  change (Ascii.eqb "." "." && negb false && true) with true. cbv iota.
  rewrite <- (append_empty_r ms) at 1.
  rewrite (numberFrom_digits ms "" true false _ 0 Hms).
  destruct ms as [|m ms]; [contradiction|]. cbn [JS.truthy orb JS.numberFrom].
  rewrite Nat.add_0_r. f_equal. apply digitsValueFrom_shift.
Qed.

Lemma versionIsAtLeast6_net rest run :
  JS.versionAt rest = Some run ->
  versionIsAtLeast6 ("net" ++ rest) = Some (JS.ge6 (JS.Number run)).
Proof.
  intros Hat. unfold versionIsAtLeast6.
  now rewrite (matchNetVersion_after_net run rest Hat).
Qed.

Lemma ge6_integer v : JS.ge6 (JS.Decimal v 0) = (6 <=? v)%Z.
Proof.
  unfold JS.ge6. change (10 ^ Z.of_nat 0)%Z with 1%Z.
  change (2 ^ 51)%Z with 2251799813685248%Z.
  destruct (Z.leb_spec 6 v); [apply Z.leb_le | apply Z.leb_gt]; lia.
Qed.

Lemma ge6_decimal major v k :
  (0 <= v < 10 ^ Z.of_nat k)%Z ->
  let answer := JS.ge6 (JS.Decimal (major * 10 ^ Z.of_nat k + v) k) in
  ((6 <= major)%Z -> answer = true) /\
  ((major <= 4)%Z -> answer = false) /\
  (k <= 15 -> answer = (6 <=? major)%Z).
Proof.
  intros Hv answer. subst answer. unfold JS.ge6.
  change (2 ^ 51)%Z with 2251799813685248%Z.
  set (P := (10 ^ Z.of_nat k)%Z) in *.
  assert (HP : (0 < P)%Z) by (apply Z.pow_pos_nonneg; lia).
  split; [|split].
  - intros Hmajor. apply Z.leb_le. nia.
  - intros Hmajor. apply Z.leb_gt. nia.
  - intros Hk.
    assert (HP15 : (P <= 10 ^ 15)%Z) by (apply Z.pow_le_mono_r; lia).
    change (10 ^ 15)%Z with 1000000000000000%Z in HP15.
    destruct (Z.leb_spec 6 major); [apply Z.leb_le | apply Z.leb_gt]; nia.
Qed.

(** X9.  For a target framework written [net<digits>], possibly followed by
    a suffix that starts with neither a digit nor a dot, the comparison is
    the comparison of the whole numeral with 6: [net472] and [net48] compare
    true like [net8], [net5] compares false. *)
Theorem integer_moniker_compares_by_value :
  forall host filePath digits suffix,
    completion (getTargetFramework host filePath)
      = Normal (Some ("net" ++ digits ++ suffix)) ->
    allDigits digits = true -> digits <> "" -> endsRun suffix = true ->
    completion (isTargetFrameworkHigherThanOrEqualToDotNet6 host filePath)
      = Normal (Some (6 <=? digitsValue digits)%Z).
Proof.
  intros host filePath digits suffix Hresolved Hdigits Hne Hend.
  rewrite (comparison_of_resolved _ _ _ Hresolved).
  rewrite (versionIsAtLeast6_net (digits ++ suffix) digits).
  - now rewrite (Number_integer digits Hdigits Hne), ge6_integer.
  - destruct digits as [|d ds]; [contradiction|]. simpl in Hdigits |- *.
    apply andb_prop in Hdigits as [Hd Hds].
    now rewrite Hd, (versionTail_digits ds suffix Hds Hend).
Qed.

Lemma integer_moniker_compares_by_value_witness :
  completion (isTargetFrameworkHigherThanOrEqualToDotNet6
                (Fixture.targeting "net472") Fixture.appPath) = Normal (Some true) /\
  completion (isTargetFrameworkHigherThanOrEqualToDotNet6
                (Fixture.targeting "net5-windows") Fixture.appPath) = Normal (Some false).
Proof.
  split.
  - apply (integer_moniker_compares_by_value
             (Fixture.targeting "net472") Fixture.appPath "472" "");
      [reflexivity | reflexivity | discriminate | reflexivity].
  - apply (integer_moniker_compares_by_value
             (Fixture.targeting "net5-windows") Fixture.appPath "5" "-windows");
      [reflexivity | reflexivity | discriminate | reflexivity].
Defined.

(** X10.  For a target framework written [net<major>.<minor>], possibly
    followed by a suffix that starts with neither a digit nor a dot (as in
    [net8.0-windows]), the comparison is true when the major numeral is at
    least 6 and false when it is at most 4; with a minor numeral of at most
    15 digits it is exactly the comparison of the major numeral with 6. *)
Theorem two_segment_moniker_compares_by_major :
  forall host filePath major minor suffix,
    completion (getTargetFramework host filePath)
      = Normal (Some ("net" ++ major ++ "." ++ minor ++ suffix)) ->
    allDigits major = true -> major <> "" ->
    allDigits minor = true -> minor <> "" ->
    endsRun suffix = true ->
    let answer := completion (isTargetFrameworkHigherThanOrEqualToDotNet6 host filePath) in
    ((6 <= digitsValue major)%Z -> answer = Normal (Some true)) /\
    ((digitsValue major <= 4)%Z -> answer = Normal (Some false)) /\
    (String.length minor <= 15 ->
     answer = Normal (Some (6 <=? digitsValue major)%Z)).
Proof.
  intros host filePath major minor suffix Hresolved Hmajor Hne Hminor Hnm Hend answer.
  subst answer. rewrite (comparison_of_resolved _ _ _ Hresolved).
  rewrite (versionIsAtLeast6_net (major ++ "." ++ minor ++ suffix)
                                 (major ++ String "." minor)).
  - rewrite (Number_two_segments major minor Hmajor Hne Hminor Hnm).
    destruct (ge6_decimal (digitsValue major) (digitsValue minor) (String.length minor)
                          (digitsValue_range minor Hminor)) as (Hhigh & Hlow & Hexact).
    split; [|split]; intros H.
    + now rewrite (Hhigh H).
    + now rewrite (Hlow H).
    + now rewrite (Hexact H).
  - destruct major as [|d ds]; [contradiction|]. simpl in Hmajor.
    apply andb_prop in Hmajor as [Hd Hds].
    change (JS.versionAt (String d (ds ++ String "." (minor ++ suffix)))
            = Some (String d (ds ++ String "." minor))).
    cbn [JS.versionAt]. rewrite Hd.
    now rewrite (versionTail_two_segments ds minor suffix Hds Hminor Hnm Hend).
Qed.

Lemma two_segment_moniker_compares_by_major_witness :
  completion (isTargetFrameworkHigherThanOrEqualToDotNet6
                (Fixture.targeting "net8.0-windows") Fixture.appPath)
    = Normal (Some true) /\
  completion (isTargetFrameworkHigherThanOrEqualToDotNet6
                (Fixture.targeting "net5.0") Fixture.appPath)
    = Normal (Some false).
Proof.
  split.
  - apply (proj1 (two_segment_moniker_compares_by_major
                    (Fixture.targeting "net8.0-windows") Fixture.appPath
                    "8" "0" "-windows" eq_refl eq_refl ltac:(discriminate)
                    eq_refl ltac:(discriminate) eq_refl)).
    vm_compute. discriminate.
  - apply (proj2 (proj2 (two_segment_moniker_compares_by_major
                    (Fixture.targeting "net5.0") Fixture.appPath
                    "5" "0" "" eq_refl eq_refl ltac:(discriminate)
                    eq_refl ltac:(discriminate) eq_refl))).
    simpl. lia.
Defined.

(** *** Monikers with letters between [net] and the version *)

Lemma not_n c :
  Ascii.eqb c "n" = false -> Ascii.eqb c "N" = false -> JS.eqIgnoreCase "n" c = false.
Proof.
  destruct c as [[] [] [] [] [] [] [] []]; intros Hn HN;
    try discriminate Hn; try discriminate HN; reflexivity.
Qed.

(** A character that is no [n] cannot start a match. *)
Lemma matchNetVersion_skip a s :
  JS.eqIgnoreCase "n" a = false ->
  JS.matchNetVersion (String a s) = JS.matchNetVersion s.
Proof.
  intros Ha. destruct s as [|b [|c rest]]; try reflexivity.
  cbn [JS.matchNetVersion]. now rewrite Ha.
Qed.

(** Nor can an [n] that is not followed by [e]. *)
Lemma matchNetVersion_skip_n a b s :
  JS.eqIgnoreCase "e" b = false ->
  JS.matchNetVersion (String a (String b s)) = JS.matchNetVersion (String b s).
Proof.
  intros Hb. destruct s as [|c rest].
  - cbn. now destruct (JS.eqIgnoreCase "n" b).
  - cbn [JS.matchNetVersion]. now rewrite Hb, andb_false_r.
Qed.

Lemma matchNetVersion_without_n s :
  occurs "n" s = false -> occurs "N" s = false -> JS.matchNetVersion s = None.
Proof.
  induction s as [|a s IH]; intros Hn HN; [reflexivity|].
  simpl in Hn, HN. apply orb_false_elim in Hn as [Han Hn].
  apply orb_false_elim in HN as [HaN HN].
  rewrite (matchNetVersion_skip a s (not_n a Han HaN)). now apply IH.
Qed.

Lemma matchNetVersion_netcoreapp version :
  occurs "n" version = false -> occurs "N" version = false ->
  JS.matchNetVersion ("netcoreapp" ++ version) = None.
Proof.
  intros Hn HN.
  change ("netcoreapp" ++ version)
    with (String "n" (String "e" (String "t" ("coreapp" ++ version)))).
  cbn [JS.matchNetVersion]. change (JS.versionAt ("coreapp" ++ version)) with (@None string).
  assert (Hstep : forall a s, JS.eqIgnoreCase "n" a = false ->
                              JS.matchNetVersion (String a s) = JS.matchNetVersion s)
    by exact matchNetVersion_skip.
  destruct (JS.eqIgnoreCase "n" "n" && JS.eqIgnoreCase "e" "e" && JS.eqIgnoreCase "t" "t");
    cbn [append]; rewrite !Hstep by reflexivity;
    now apply matchNetVersion_without_n.
Qed.

Lemma matchNetVersion_netstandard version :
  occurs "n" version = false -> occurs "N" version = false ->
  JS.matchNetVersion ("netstandard" ++ version) = None.
Proof.
  intros Hn HN.
  change ("netstandard" ++ version)
    with (String "n" (String "e" (String "t" ("standard" ++ version)))).
  cbn [JS.matchNetVersion]. change (JS.versionAt ("standard" ++ version)) with (@None string).
  assert (Hstep : forall a s, JS.eqIgnoreCase "n" a = false ->
                              JS.matchNetVersion (String a s) = JS.matchNetVersion s)
    by exact matchNetVersion_skip.
  destruct (JS.eqIgnoreCase "n" "n" && JS.eqIgnoreCase "e" "e" && JS.eqIgnoreCase "t" "t");
    cbn [append]; rewrite !Hstep by reflexivity;
    rewrite (matchNetVersion_skip_n "n" "d" _ eq_refl);
    rewrite !Hstep by reflexivity;
    now apply matchNetVersion_without_n.
Qed.

(** X11.  Target frameworks of the families [netcoreapp<version>] and
    [netstandard<version>] always compare false, whatever the version is:
    no digit stands right behind their [net], so nothing is matched. *)
Theorem lettered_families_compare_false :
  forall host filePath version,
    completion (getTargetFramework host filePath) = Normal (Some ("netcoreapp" ++ version)) \/
    completion (getTargetFramework host filePath) = Normal (Some ("netstandard" ++ version)) ->
    occurs "n" version = false -> occurs "N" version = false ->
    completion (isTargetFrameworkHigherThanOrEqualToDotNet6 host filePath)
      = Normal (Some false).
Proof.
  intros host filePath version [Hresolved | Hresolved] Hn HN;
    rewrite (comparison_of_resolved _ _ _ Hresolved); f_equal;
    apply versionIsAtLeast6_unmatched; try discriminate.
  - now apply matchNetVersion_netcoreapp.
  - now apply matchNetVersion_netstandard.
Qed.

Lemma lettered_families_compare_false_witness :
  completion (isTargetFrameworkHigherThanOrEqualToDotNet6
                (Fixture.targeting "netcoreapp7.0") Fixture.appPath) = Normal (Some false) /\
  completion (isTargetFrameworkHigherThanOrEqualToDotNet6
                (Fixture.targeting "netstandard2.1") Fixture.appPath) = Normal (Some false).
Proof.
  split.
  - exact (lettered_families_compare_false
             (Fixture.targeting "netcoreapp7.0") Fixture.appPath "7.0"
             (or_introl eq_refl) eq_refl eq_refl).
  - exact (lettered_families_compare_false
             (Fixture.targeting "netstandard2.1") Fixture.appPath "2.1"
             (or_intror eq_refl) eq_refl eq_refl).
Defined.

(* ===================================================================== *)
(** ** Utilities: line endings and the log channel                        *)
(* ===================================================================== *)

(** X12.  [getEolSetting] always yields a line terminator, LF or CRLF: the
    two explicit settings are returned as they are, and [auto] or any other
    text gives the terminator of the platform.  Applying it to its own
    result changes nothing. *)
Theorem getEolSetting_is_a_line_terminator :
  forall os eol,
    (getEolSetting os eol = LF \/ getEolSetting os eol = CRLF) /\
    (eol = LF \/ eol = CRLF -> getEolSetting os eol = eol) /\
    (eol <> LF -> eol <> CRLF -> getEolSetting os eol = os_EOL os) /\
    getEolSetting os (getEolSetting os eol) = getEolSetting os eol.
Proof.
  intros os eol. unfold getEolSetting.
  destruct (String.eqb_spec eol LF) as [-> | Hlf].
  - repeat split; auto. intros Hne. contradiction.
  - destruct (String.eqb_spec eol CRLF) as [-> | Hcrlf].
    + repeat split; auto. intros _ Hne. contradiction.
    + assert (Hos : (if String.eqb eol "auto" then os_EOL os else os_EOL os) = os_EOL os)
        by now destruct (String.eqb eol "auto").
      rewrite Hos. split; [|split; [|split]].
      * destruct os; [now left | now right].
      * intros [-> | ->]; contradiction.
      * reflexivity.
      * now destruct os.
Qed.

Section LogChannel.

Variable Value : Type.
Variable truthy : Value -> bool.
Variable undefined : Value.
Variable ofString : string -> Value.
Variable JSON_stringify : Value -> string.
Variable asExtensionError : Value -> option Value.
Variable errLogOf : Value -> Value -> Value.

Local Abbreviation run := (runCall Value truthy undefined ofString JSON_stringify
                         asExtensionError errLogOf).
Local Abbreviation runAll := (runCalls Value truthy undefined ofString JSON_stringify
                             asExtensionError errLogOf).
Local Abbreviation line := (lineOf Value truthy undefined ofString JSON_stringify
                         asExtensionError errLogOf).

(** Once the channel exists, a call appends its line to it and creates
    nothing. *)
Lemma runCall_with_channel call st channel :
  logChannel st = Some channel ->
  logChannel (run call st) = Some channel /\
  filter isCreation (uiEvents (run call st)) = filter isCreation (uiEvents st) /\
  appendedLines (uiEvents (run call st))
    = (appendedLines (uiEvents st) ++ [(channel, line call)])%list.
Proof.
  intros Hchannel.
  destruct call as [message error | errorMessage error];
    unfold runCall, showAndLogErrorMessage, log, getLogChannel; rewrite Hchannel;
    cbn [logChannel uiEvents lineOf];
    unfold appendedLines; rewrite ?filter_app, ?flat_map_app; simpl;
    rewrite ?app_nil_r; repeat split; try reflexivity; exact Hchannel.
Qed.

Lemma runCalls_with_channel calls : forall st channel,
  logChannel st = Some channel ->
  filter isCreation (uiEvents (runAll calls st)) = filter isCreation (uiEvents st) /\
  appendedLines (uiEvents (runAll calls st))
    = (appendedLines (uiEvents st) ++ map (fun call => (channel, line call)) calls)%list.
Proof.
  induction calls as [|call calls IH]; intros st channel Hchannel.
  - simpl. now rewrite app_nil_r.
  - destruct (runCall_with_channel call st channel Hchannel) as (Hkept & Hcreated & Hlines).
    destruct (IH (run call st) channel Hkept) as [Hcreated' Hlines'].
    unfold runCalls in *. cbn [fold_left]. rewrite Hcreated', Hlines', Hcreated, Hlines.
    split; [reflexivity|]. now rewrite <- app_assoc.
Qed.

(** The first call creates the channel, before it appends. *)
Lemma first_call_creates call :
  logChannel (run call initialUi) = Some 0 /\
  hd_error (uiEvents (run call initialUi)) = Some (CreateOutputChannel "C# Extension") /\
  filter isCreation (uiEvents (run call initialUi)) = [CreateOutputChannel "C# Extension"] /\
  appendedLines (uiEvents (run call initialUi)) = [(0, line call)].
Proof.
  destruct call as [message error | errorMessage error]; repeat split.
Qed.


End LogChannel.

(* ===================================================================== *)
(** ** The extension: which installed extension is the current one        *)
(* ===================================================================== *)

Section KnownExtensions.

Variable VscodeExtension : Type.
Variable getExtension : string -> option VscodeExtension.

Lemma probe_first_found names : forall i name extension,
  nth_error names i = Some name ->
  getExtension name = Some extension ->
  (forall j earlier, j < i -> nth_error names j = Some earlier ->
                     getExtension earlier = None) ->
  probeKnownExtensions VscodeExtension getExtension names
    = (firstn (S i) names, Some extension).
Proof.
  induction names as [|first names IH]; intros [|i] name extension Hnth Hfound Hbefore;
    simpl in Hnth; try discriminate.
  - injection Hnth as ->. simpl. now rewrite Hfound.
  - cbn [probeKnownExtensions]. rewrite (Hbefore 0 first (Nat.lt_0_succ i) eq_refl).
    rewrite (IH i name extension Hnth Hfound).
    + reflexivity.
    + intros j earlier Hj Hearlier. apply (Hbefore (S j) earlier); [lia | exact Hearlier].
Qed.

Lemma probe_none_found names :
  (forall name, In name names -> getExtension name = None) ->
  probeKnownExtensions VscodeExtension getExtension names = (names, None).
Proof.
  induction names as [|first names IH]; intros Hnone; [reflexivity|].
  cbn [probeKnownExtensions]. rewrite (Hnone first (or_introl eq_refl)).
  rewrite IH; [reflexivity|]. intros name Hin. apply Hnone. now right.
Qed.

End KnownExtensions.

(** X14.  With nothing remembered yet, [GetCurrentVscodeExtension] asks for
    the known extension names in their order of priority and stops at the
    first one that is installed, which it returns and remembers; when none
    is installed it has asked for all three, returns nothing and remembers
    nothing, so that the next call asks again.  Once an extension is
    remembered it is returned without asking, whatever is installed then. *)
Theorem first_installed_known_extension_is_current :
  forall (VscodeExtension : Type) (getExtension : string -> option VscodeExtension),
    (forall i name extension,
        nth_error KnownExtensionNames i = Some name ->
        getExtension name = Some extension ->
        (forall j earlier, j < i -> nth_error KnownExtensionNames j = Some earlier ->
                           getExtension earlier = None) ->
        GetCurrentVscodeExtension VscodeExtension getExtension None
          = (firstn (S i) KnownExtensionNames, Some extension)) /\
    ((forall name, In name KnownExtensionNames -> getExtension name = None) ->
     GetCurrentVscodeExtension VscodeExtension getExtension None
       = (KnownExtensionNames, None)) /\
    (forall remembered asked current,
        GetCurrentVscodeExtension VscodeExtension getExtension remembered
          = (asked, Some current) ->
        forall getExtension',
          GetCurrentVscodeExtension VscodeExtension getExtension' (Some current)
            = ([], Some current)).
Proof.
  intros VscodeExtension getExtension. split; [|split].
  - intros i name extension. apply probe_first_found.
  - apply probe_none_found.
  - reflexivity.
Qed.

Lemma first_installed_known_extension_is_current_witness :
  GetCurrentVscodeExtension nat
    (fun name => if String.eqb name "jsw.csharpextensions" then Some 7
                 else if String.eqb name "kreativ-software.csharpextensions" then Some 5
                 else None)
    None
  = (["bard83.csharpextension"; "kreativ-software.csharpextensions"], Some 5).
Proof.
  apply (proj1 (first_installed_known_extension_is_current nat _)
               1 "kreativ-software.csharpextensions" 5 eq_refl eq_refl).
  intros [|j] earlier Hj Hearlier; [|lia].
  simpl in Hearlier. now injection Hearlier as <-.
Defined.

(* ===================================================================== *)
(** ** The extension: file name and custom template                       *)
(* ===================================================================== *)

Lemma length_append a b : String.length (a ++ b) = String.length a + String.length b.
Proof. induction a as [|c a IH]; simpl; [reflexivity | now rewrite IH]. Qed.

Lemma substring_prefix a b : substring 0 (String.length a) (a ++ b) = a.
Proof.
  induction a as [|c a IH]; simpl.
  - now destruct b.
  - now rewrite IH.
Qed.

Lemma substring_suffix a b : substring (String.length a) (String.length b) (a ++ b) = b.
Proof.
  induction a as [|c a IH]; simpl; [apply substring_whole | exact IH].
Qed.

Lemma substring_split s : forall n,
  n <= String.length s ->
  substring 0 n s ++ substring n (String.length s - n) s = s.
Proof.
  induction s as [|c s IH]; intros [|n] Hn; simpl in *; try reflexivity; try lia.
  - now rewrite substring_whole.
  - rewrite IH; [reflexivity | lia].
Qed.

Lemma endsWith_append a b : JS.endsWith (a ++ b) b = true.
Proof.
  unfold JS.endsWith. rewrite length_append.
  replace (String.length a + String.length b - String.length b) with (String.length a)
    by lia.
  rewrite substring_suffix, String.eqb_refl.
  assert (H : (String.length b <=? String.length a + String.length b)%nat = true)
    by (apply Nat.leb_le; lia).
  now rewrite H.
Qed.

(** X15.  The file name keeps everything but one trailing [.cs]: a name
    typed with the extension gives the same file name as the name typed
    without it, a name with another ending is kept whole, and the name that
    was typed is got back by putting [.cs] behind the result. *)
Theorem newFilename_drops_one_cs :
  forall name,
    startExecutor_newFilename (name ++ ".cs") = name /\
    (JS.endsWith name ".cs" = false -> startExecutor_newFilename name = name) /\
    (JS.endsWith name ".cs" = true -> startExecutor_newFilename name ++ ".cs" = name).
Proof.
  intros name. unfold startExecutor_newFilename. split; [|split].
  - rewrite endsWith_append, length_append. simpl String.length.
    replace (String.length name + 3 - 3) with (String.length name) by lia.
    apply substring_prefix.
  - now intros ->.
  - intros Hends. rewrite Hends. unfold JS.endsWith in Hends.
    apply andb_prop in Hends as [Hlen Hsuffix].
    apply Nat.leb_le in Hlen. apply String.eqb_eq in Hsuffix. simpl String.length in *.
    rewrite <- Hsuffix.
    pose proof (substring_split name (String.length name - 3)) as Hsplit.
    replace (String.length name - (String.length name - 3)) with 3 in Hsplit by lia.
    apply Hsplit. lia.
Qed.

(** *** The label of a custom template leads back to the template *)

Lemma natToString_digits n : allDigits (JS.natToString n) = true.
Proof.
  unfold JS.natToString. induction (Nat.to_uint n) as [|d IH|d IH|d IH|d IH|d IH|d IH|d IH|d IH|d IH|d IH];
    simpl; trivial.
Qed.

Lemma natToString_not_empty n : JS.natToString n <> "".
Proof.
  unfold JS.natToString. intros Hempty.
  pose proof (DecimalNat.Unsigned.of_to n) as Hback.
  destruct (Nat.to_uint n) eqn:Hn; try discriminate Hempty.
  simpl in Hback. subst n. discriminate Hn.
Qed.

Lemma digitsValueFrom_of_uint d : forall acc,
  digitsValueFrom (Z.of_nat acc) (DecimalString.NilEmpty.string_of_uint d)
  = Z.of_nat (Nat.of_uint_acc d acc).
Proof.
  induction d as [|d IH|d IH|d IH|d IH|d IH|d IH|d IH|d IH|d IH|d IH]; intros acc;
    [reflexivity|..];
    cbn [DecimalString.NilEmpty.string_of_uint digitsValueFrom Nat.of_uint_acc];
    rewrite <- IH; f_equal; rewrite Nat.tail_mul_spec; unfold JS.digitValue;
    simpl (nat_of_ascii _ - 48); lia.
Qed.

Lemma natToString_value n : digitsValue (JS.natToString n) = Z.of_nat n.
Proof.
  unfold digitsValue, JS.natToString. change 0%Z with (Z.of_nat 0).
  rewrite (digitsValueFrom_of_uint (Nat.to_uint n) 0).
  f_equal. exact (DecimalNat.Unsigned.of_to n).
Qed.

(** What a digit is not, and what it is worth in radix 10. *)
Lemma digit_facts c :
  JS.isDigit c = true ->
  JS.isWhiteSpace c = false /\ Ascii.eqb c "-" = false /\ Ascii.eqb c "+" = false /\
  Ascii.eqb c "x" = false /\ Ascii.eqb c "X" = false /\
  JS.radixDigit 10 c = Some (JS.digitValue c).
Proof.
  destruct c as [[] [] [] [] [] [] [] []]; intros H; try discriminate H;
    repeat split; reflexivity.
Qed.

Lemma firstSegment_digits ds rest :
  allDigits ds = true -> JS.firstSegment "-" (ds ++ String "-" rest) = ds.
Proof.
  induction ds as [|c ds IH]; intros Hds; simpl in *; [reflexivity|].
  apply andb_prop in Hds as [Hc Hds].
  destruct (digit_facts c Hc) as (_ & Hdash & _). now rewrite Hdash, IH.
Qed.

Lemma parseDigits_decimal ds : forall acc,
  allDigits ds = true ->
  JS.parseDigits 10 ds (Some acc) = Some (digitsValueFrom acc ds).
Proof.
  induction ds as [|c ds IH]; intros acc Hds; simpl in *; [reflexivity|].
  apply andb_prop in Hds as [Hc Hds].
  destruct (digit_facts c Hc) as (_ & _ & _ & _ & _ & Hvalue).
  now rewrite Hvalue, IH.
Qed.

(** [parseInt] of a decimal numeral is its value. *)
Lemma parseInt_digits ds :
  allDigits ds = true -> ds <> "" -> JS.parseInt ds = Some (digitsValue ds).
Proof.
  intros Hds Hne. destruct ds as [|c ds]; [contradiction|].
  simpl in Hds. apply andb_prop in Hds as [Hc Hds].
  destruct (digit_facts c Hc) as (Hspace & Hminus & Hplus & _ & _ & Hvalue).
  unfold JS.parseInt. cbn [JS.trimStart]. rewrite Hspace, Hminus, Hplus. cbn [fst snd].
  assert (Hradix : (match String c ds with
                    | String z (String x rest) =>
                        if Ascii.eqb z "0" && (Ascii.eqb x "x" || Ascii.eqb x "X")
                        then (16%Z, rest) else (10%Z, String c ds)
                    | _ => (10%Z, String c ds)
                    end) = (10%Z, String c ds)).
  { destruct ds as [|x rest]; [reflexivity|]. simpl in Hds.
    apply andb_prop in Hds as [Hx _].
    destruct (digit_facts x Hx) as (_ & _ & _ & Hlower & Hupper & _).
    now rewrite Hlower, Hupper, andb_false_r. }
  rewrite Hradix. cbn [fst snd JS.parseDigits]. rewrite Hvalue.
  rewrite (parseDigits_decimal ds _ Hds). unfold digitsValue. cbn [digitsValueFrom].
  f_equal. lia.
Qed.

Section TemplateChoice.

Variable CustomTemplate : Type.
Variable name : CustomTemplate -> string.
Variable description : CustomTemplate -> string.

Lemma label_index index i :
  JS.parseInt (JS.firstSegment "-" (templateLabel CustomTemplate name description index i))
  = Some (Z.of_nat index).
Proof.
  unfold templateLabel.
  change (JS.natToString index ++ "-" ++ name i ++ "-" ++ description i)
    with (JS.natToString index ++ String "-" (name i ++ "-" ++ description i)).
  rewrite (firstSegment_digits _ _ (natToString_digits index)).
  rewrite (parseInt_digits _ (natToString_digits index) (natToString_not_empty index)).
  now rewrite natToString_value.
Qed.

Lemma templateLabelsFrom_nth items : forall start k label,
  nth_error (templateLabelsFrom CustomTemplate name description start items) k = Some label ->
  exists i, nth_error items k = Some i /\
            label = templateLabel CustomTemplate name description (start + k) i.
Proof.
  induction items as [|i items IH]; intros start [|k] label Hlabel; simpl in Hlabel;
    try discriminate.
  - injection Hlabel as <-. exists i. now rewrite Nat.add_0_r.
  - destruct (IH (S start) k label Hlabel) as (i' & Hnth & ->).
    exists i'. split; [exact Hnth|]. now rewrite Nat.add_succ_r.
Qed.

(** X16.  Whichever entry of the quick pick is chosen, the custom template
    taken is the one the entry was made from: the index written in front of
    the entry is read back, whatever the name and the description of the
    template contain, dashes and digits included. *)
Theorem chosen_label_gives_its_template :
  forall (items : list CustomTemplate) k label,
    nth_error (templateLabels CustomTemplate name description items) k = Some label ->
    startExecutor_customTemplate CustomTemplate items label = nth_error items k /\
    exists i, nth_error items k = Some i.
Proof.
  intros items k label Hlabel.
  destruct (templateLabelsFrom_nth items 0 k label Hlabel) as (i & Hnth & ->).
  split; [|now exists i]. unfold startExecutor_customTemplate.
  rewrite label_index. simpl Nat.add.
  assert (Hsign : (Z.of_nat k <? 0)%Z = false) by (apply Z.ltb_ge; lia).
  now rewrite Hsign, Nat2Z.id.
Qed.

End TemplateChoice.

Lemma chosen_label_gives_its_template_witness :
  startExecutor_customTemplate (string * string)
    [("record", "a-b"); ("2-tier", "3-4")] "1-2-tier-3-4"
  = Some ("2-tier", "3-4").
Proof.
  exact (proj1 (chosen_label_gives_its_template
                  (string * string) fst snd
                  [("record", "a-b"); ("2-tier", "3-4")] 1 "1-2-tier-3-4" eq_refl)).
Defined.

(* ===================================================================== *)
(** ** The extension: the usings handed to the templates                  *)
(* ===================================================================== *)

Lemma includes_In array x : JS.includes array x = true <-> In x array.
Proof.
  unfold JS.includes. rewrite existsb_exists. split.
  - intros (y & Hin & Heq). apply String.eqb_eq in Heq. now subst y.
  - intros Hin. exists x. split; [exact Hin | apply String.eqb_refl].
Qed.

Lemma includes_not_In array x : JS.includes array x = false <-> ~ In x array.
Proof.
  rewrite <- includes_In. destruct (JS.includes array x); split; congruence.
Qed.

Lemma In_uniqFrom array : forall seen x,
  In x (Lodash.uniqFrom seen array) <-> In x array /\ ~ In x seen.
Proof.
  induction array as [|y array IH]; intros seen x; simpl; [tauto|].
  destruct (JS.includes seen y) eqn:Hseen.
  - apply includes_In in Hseen. rewrite IH. split.
    + intros [Hin Hnot]. split; [now right | exact Hnot].
    + intros [[-> | Hin] Hnot]; [contradiction | now split].
  - apply includes_not_In in Hseen. simpl. rewrite IH. simpl. split.
    + intros [-> | [Hin Hnot]]; [split; [now left | exact Hseen]|].
      split; [now right | tauto].
    + intros [[-> | Hin] Hnot]; [now left|].
      destruct (string_dec y x) as [-> | Hne]; [now left|]. right. split; [exact Hin|].
      intros [Heq | Hin']; [contradiction | contradiction].
Qed.

Lemma NoDup_uniqFrom array : forall seen, NoDup (Lodash.uniqFrom seen array).
Proof.
  induction array as [|y array IH]; intros seen; simpl; [constructor|].
  destruct (JS.includes seen y); [apply IH|].
  constructor; [|apply IH]. rewrite In_uniqFrom. simpl. tauto.
Qed.

Lemma merged_list_facts globalUsings namespaceInclude namespaceRemove :
  NoDup (mergeUsings globalUsings namespaceInclude namespaceRemove) /\
  (forall x, In x (mergeUsings globalUsings namespaceInclude namespaceRemove) ->
             ~ In x namespaceRemove).
Proof.
  unfold mergeUsings, Lodash.uniq. split.
  - apply NoDup_filter, NoDup_uniqFrom.
  - intros x Hin. apply filter_In in Hin as [_ Hkept].
    apply negb_true_iff in Hkept. now apply includes_not_In.
Qed.

(** X17.  The usings handed to the templates hold no namespace twice and
    none that the project removes; they hold every other namespace that was
    found as a global using or that the project includes, and nothing
    else. *)
Theorem merged_usings_are_distinct_and_filtered :
  forall globalUsings namespaceInclude namespaceRemove,
    let merged := mergeUsings globalUsings namespaceInclude namespaceRemove in
    NoDup merged /\
    (forall x, In x merged <->
               (In x globalUsings \/ In x namespaceInclude) /\ ~ In x namespaceRemove).
Proof.
  intros globalUsings namespaceInclude namespaceRemove merged. subst merged.
  unfold mergeUsings, Lodash.uniq. split.
  - apply NoDup_filter, NoDup_uniqFrom.
  - intros x. rewrite filter_In, In_uniqFrom, in_app_iff, negb_true_iff,
      includes_not_In. simpl. tauto.
Qed.

Section UsingsForTemplates.

Variable host : Host.
Variable GlobalUsingFinder_find : string -> option string -> Async (option (list string)).

(** A lookup that settles has read and parsed the root. *)
Lemma lookup_settled_root_parsed filePath pg :
  completion (getPropertyGroups host filePath) = Normal pg ->
  exists content xml, RootParsesTo host filePath content xml.
Proof.
  unfold getPropertyGroups, getXmlContent, getContent, bind, emit, completion, RootParsesTo.
  destruct (FileHandler_read host filePath) as [content|e]; simpl; [|discriminate].
  destruct (parseStringPromise host content) as [xml|e] eqn:Hparse; simpl; [|discriminate].
  intros _. now exists content, xml.
Qed.

Lemma usings_settle_when_root_parses filePath content xml :
  RootParsesTo host filePath content xml ->
  exists includes removes,
    getUsingsInclude host filePath = (rootOnly filePath content, Normal includes) /\
    getUsingsRemove host filePath = (rootOnly filePath content, Normal removes).
Proof.
  intros Hroot. unfold getUsingsInclude, getUsingsRemove, getUsings.
  rewrite (getXmlContent_root _ _ _ _ Hroot). unfold bind.
  destruct (optItemGroup xml); simpl; eexists; eexists; split; reflexivity.
Qed.

(** A true comparison means that the lookup settled. *)
Lemma comparison_true_root_parsed filePath :
  completion (isTargetFrameworkHigherThanOrEqualToDotNet6 host filePath)
    = Normal (Some true) ->
  exists content xml, RootParsesTo host filePath content xml.
Proof.
  rewrite isTargetFramework_run, getTargetFramework_run.
  destruct (getPropertyGroups host filePath) as [t [pg|e]] eqn:Hlookup;
    unfold completion; simpl; [|discriminate].
  intros _. apply (lookup_settled_root_parsed filePath pg). now rewrite Hlookup.
Qed.

Local Abbreviation usings := (startExecutor_usings host GlobalUsingFinder_find).

(** X18.  Without a project file for the new file, and with one whose
    comparison with .NET 6 returns false or nothing, no global usings are
    looked for and no Using item is read: the templates get no usings and no
    implicit usings, and the only files touched are those of the comparison
    itself. *)
Theorem no_usings_below_net6 :
  forall usingsImplicit,
    usings None usingsImplicit = ([], Normal (false, [], false)) /\
    (forall readerPath,
        completion (isTargetFrameworkHigherThanOrEqualToDotNet6 host readerPath)
          = Normal (Some false) \/
        completion (isTargetFrameworkHigherThanOrEqualToDotNet6 host readerPath)
          = Normal None ->
        usings (Some readerPath) usingsImplicit
          = (events (isTargetFrameworkHigherThanOrEqualToDotNet6 host readerPath),
             Normal (false, [], false))).
Proof.
  intros usingsImplicit. split; [reflexivity|].
  intros readerPath Hbelow. unfold startExecutor_usings.
  destruct (isTargetFrameworkHigherThanOrEqualToDotNet6 host readerPath) as [t c].
  unfold completion, events in *. simpl in *.
  destruct Hbelow as [-> | ->]; unfold bind, ret; simpl; now rewrite ?app_nil_r.
Qed.


(** X20.  Once the comparison with .NET 6 has returned true, and as long
    as the files do not change between the reads, the computation of the
    usings can be rejected only by the search for global usings: the
    reader's own queries, those for the Using items included, all settle. *)
Theorem usings_reject_only_with_the_finder :
  forall readerPath usingsImplicit e,
    completion (isTargetFrameworkHigherThanOrEqualToDotNet6 host readerPath)
      = Normal (Some true) ->
    completion (usings (Some readerPath) usingsImplicit) = Throw e ->
    exists frameworkVersion,
      completion (getTargetFramework host readerPath) = Normal frameworkVersion /\
      completion (GlobalUsingFinder_find readerPath frameworkVersion) = Throw e.
Proof.
  intros readerPath usingsImplicit e Habove. unfold startExecutor_usings.
  destruct (comparison_true_root_parsed readerPath Habove) as (content & xml & Hroot).
  destruct (isTargetFrameworkHigherThanOrEqualToDotNet6 host readerPath) as [t0 c0].
  unfold completion in Habove. simpl in Habove. subst c0.
  unfold bind at 1 2. cbn [ret app].
  destruct (usings_settle_when_root_parses readerPath content xml Hroot)
    as (includes & removes & Hincludes & Hremoves).
  destruct (getTargetFramework_settles host readerPath) as [frameworkVersion Hframework].
  destruct (useImplicitUsings_settles host readerPath) as [enabled Henabled].
  destruct (getTargetFramework host readerPath) as [t1 c1] eqn:Htarget.
  unfold completion in Hframework. simpl in Hframework. subst c1. unfold bind at 1.
  destruct (GlobalUsingFinder_find readerPath frameworkVersion) as [t2 [result|e2]] eqn:Hfind;
    unfold bind at 1.
  - rewrite Hincludes, Hremoves.
    destruct (useImplicitUsings host readerPath) as [t3 c3].
    unfold completion in Henabled. simpl in Henabled. subst c3.
    destruct usingsImplicit; unfold bind, ret, completion; simpl; discriminate.
  - unfold completion. simpl. intros [= ->].
    exists frameworkVersion. split; [reflexivity | now rewrite Hfind].
Qed.

End UsingsForTemplates.


Lemma usings_reject_only_with_the_finder_witness :
  exists frameworkVersion,
    completion (getTargetFramework Fixture.net6ProjectHost Fixture.appPath)
      = Normal frameworkVersion /\
    completion (Fixture.failingGlobalUsings Fixture.appPath frameworkVersion)
      = Throw "EACCES: permission denied".
Proof.
  exact (usings_reject_only_with_the_finder
           Fixture.net6ProjectHost Fixture.failingGlobalUsings
           Fixture.appPath true "EACCES: permission denied" eq_refl eq_refl).
Defined.

Lemma no_usings_below_net6_witness :
  startExecutor_usings (Fixture.targeting "net5.0") Fixture.foundGlobalUsings
                       (Some Fixture.appPath) true
    = (events (isTargetFrameworkHigherThanOrEqualToDotNet6
                 (Fixture.targeting "net5.0") Fixture.appPath),
       Normal (false, [], false)) /\
  startExecutor_usings Fixture.projectOnlyHost Fixture.foundGlobalUsings
                       (Some Fixture.appPath) true
    = (rootOnly Fixture.appPath Fixture.projectOnlyXml, Normal (false, [], false)).
Proof.
  split.
  - exact (proj2 (no_usings_below_net6
                    (Fixture.targeting "net5.0") Fixture.foundGlobalUsings true)
                 Fixture.appPath (or_introl eq_refl)).
  - exact (proj2 (no_usings_below_net6
                    Fixture.projectOnlyHost Fixture.foundGlobalUsings true)
                 Fixture.appPath (or_intror eq_refl)).
Defined.

(* ===================================================================== *)
(** ** The extension: the order in which created files are opened         *)
(* ===================================================================== *)

Lemma insert_other_first x sorted :
  JS.endsWith (CreatedFile_filePath x) ".cs" = false ->
  JS.insertSorted compareCreatedFiles x sorted = x :: sorted.
Proof.
  intros Hx. destruct sorted as [|y rest]; [reflexivity|].
  cbn [JS.insertSorted]. unfold compareCreatedFiles. rewrite Hx.
  now destruct (JS.endsWith (CreatedFile_filePath y) ".cs").
Qed.

Lemma insert_cs_behind_others x others sources :
  JS.endsWith (CreatedFile_filePath x) ".cs" = true ->
  Forall (fun y => JS.endsWith (CreatedFile_filePath y) ".cs" = false) others ->
  Forall (fun y => JS.endsWith (CreatedFile_filePath y) ".cs" = true) sources ->
  JS.insertSorted compareCreatedFiles x (others ++ sources) = (others ++ x :: sources)%list.
Proof.
  intros Hx Hothers Hsources. induction Hothers as [|y others Hy _ IH].
  - destruct sources as [|y rest]; [reflexivity|].
    cbn [app JS.insertSorted]. unfold compareCreatedFiles. rewrite Hx.
    inversion Hsources as [|? ? Hy _]; subst. now rewrite Hy.
  - cbn [app JS.insertSorted]. unfold compareCreatedFiles at 1. rewrite Hx, Hy.
    cbn. now rewrite IH.
Qed.

Lemma filter_holds {A} (p : A -> bool) (l : list A) :
  Forall (fun y => p y = true) (filter p l).
Proof. apply Forall_forall. intros y Hin. now apply filter_In in Hin. Qed.

Lemma filter_fails {A} (p : A -> bool) (l : list A) :
  Forall (fun y => p y = false) (filter (fun y => negb (p y)) l).
Proof.
  apply Forall_forall. intros y Hin. apply filter_In in Hin as [_ H].
  now apply negb_true_iff in H.
Qed.

(** X21.  The created files are opened with every file that is no [.cs]
    file first and the [.cs] files last, each of the two kinds in the order
    in which the files were created; no file is lost or doubled. *)
Theorem cs_files_are_opened_last :
  forall created,
    let isCs := fun cf => JS.endsWith (CreatedFile_filePath cf) ".cs" in
    startExecutor_files created
      = (filter (fun cf => negb (isCs cf)) created ++ filter isCs created)%list.
Proof.
  intros created isCs. unfold startExecutor_files.
  induction created as [|x created IH]; [reflexivity|].
  cbn [JS.sort filter]. rewrite IH. subst isCs. cbv beta.
  destruct (JS.endsWith (CreatedFile_filePath x) ".cs") eqn:Hx; cbn [negb].
  - apply (insert_cs_behind_others x _ _ Hx).
    + exact (filter_fails (fun cf => JS.endsWith (CreatedFile_filePath cf) ".cs") created).
    + exact (filter_holds (fun cf => JS.endsWith (CreatedFile_filePath cf) ".cs") created).
  - now rewrite (insert_other_first x _ Hx).
Qed.

(* ===================================================================== *)
(** ** The extension: the destination path                                *)
(* ===================================================================== *)

Lemma prefix_append a b : prefix a (a ++ b) = true.
Proof. apply prefix_correct, substring_prefix. Qed.

Lemma replace_at_start pattern replacement s :
  prefix pattern s = true ->
  JS.replace pattern replacement s
  = replacement ++ substring (String.length pattern)
                             (String.length s - String.length pattern) s.
Proof. intros H. destruct s; cbn [JS.replace]; now rewrite H. Qed.

(** X22.  An incoming path that lies under the workspace root is shown
    relative to it: the root in front is taken out and what follows is kept
    as it is, even where the text of the root occurs again; without an
    incoming path there is no destination. *)
Theorem destinationPath_is_relative_to_root :
  forall rootProjectPath relative,
    startExecutor_destinationPath rootProjectPath (Some (rootProjectPath ++ relative))
      = Some relative /\
    startExecutor_destinationPath rootProjectPath None = None.
Proof.
  intros rootProjectPath relative. split; [|reflexivity].
  unfold startExecutor_destinationPath. f_equal.
  rewrite (replace_at_start _ _ _ (prefix_append rootProjectPath relative)).
  rewrite length_append.
  replace (String.length rootProjectPath + String.length relative
           - String.length rootProjectPath)
    with (String.length relative) by lia.
  now rewrite substring_suffix.
Qed.
